(** * HealthScoreAI: the report pipeline of [app.py]

    A shallow embedding of the rule-based core of [app.py]: the keyword
    matcher, the range classifier, the disease rules, the symptom and
    recommendation tables and the merge of several sources.

    Conventions of the model.
    - A reading is a Python [float]; the finite ones are rationals and the
      model takes them in [Q], with exact arithmetic.  The integer
      constants of the tables are the same rationals.  The comparisons of
      the code are then the comparisons of [Q]; its sums and quotients
      round to binary64, and a NaN, which fails every comparison, is not a
      value of [Q]: what is stated over [Q] is stated for finite readings
      and relative to the bands as computed.
    - The merge of the sources, whose result is a rounded quotient, is
      modelled over the binary64 numbers of [PrimFloat] as well, in the
      module [Binary64].
    - A Python [dict] keeps insertion order, and that order shows in the
      report; a dict is an association list with one entry per key, new
      keys appended.
    - A Python [set] is a duplicate-free list in insertion order.  The
      order in which Python lists a set is unspecified, so statements about
      such lists are made up to permutation.
    - A Python exception is a value [Raise e] of the type [result]. *)

From Stdlib Require Import QArith String Ascii List Bool PeanoNat Lia Lqa Permutation Sorted.
From Stdlib Require Import Floats.
Import ListNotations.

Open Scope string_scope.
Open Scope Q_scope.

(** ** Exceptions *)

Inductive exn : Type :=
| TypeError
| IndexError
| KeyError
| ZeroDivisionError.

Inductive result (A : Type) : Type :=
| Ok (a : A)
| Raise (e : exn).

Arguments Ok {A} a.
Arguments Raise {A} e.

Definition bind {A B : Type} (r : result A) (k : A -> result B) : result B :=
  match r with
  | Ok a => k a
  | Raise e => Raise e
  end.

Notation "x <- r ;; k" := (bind r (fun x => k))
  (at level 61, r at next level, right associativity).

Fixpoint mapM {A B : Type} (f : A -> result B) (l : list A) : result (list B) :=
  match l with
  | [] => Ok []
  | a :: l' => b <- f a ;; bs <- mapM f l' ;; Ok (b :: bs)
  end.

(** ** Numbers *)

Definition Qleb (x y : Q) : bool := Qle_bool x y.
Definition Qltb (x y : Q) : bool := negb (Qle_bool y x).
Definition Qeqb (x y : Q) : bool := Qeq_bool x y.

(** [lo <= v <= hi], a chained comparison. *)
Definition between (lo v hi : Q) : bool := Qleb lo v && Qleb v hi.

(** ** Strings *)

Definition is_upper (c : ascii) : bool :=
  let n := nat_of_ascii c in Nat.leb 65 n && Nat.leb n 90.

Definition is_lower (c : ascii) : bool :=
  let n := nat_of_ascii c in Nat.leb 97 n && Nat.leb n 122.

Definition lower_char (c : ascii) : ascii :=
  if is_upper c then ascii_of_nat (Nat.add (nat_of_ascii c) 32) else c.

Definition upper_char (c : ascii) : ascii :=
  if is_lower c then ascii_of_nat (Nat.sub (nat_of_ascii c) 32) else c.

(** [s.lower()], on the ASCII letters. *)
Fixpoint lower (s : string) : string :=
  match s with
  | EmptyString => EmptyString
  | String c s' => String (lower_char c) (lower s')
  end.

(** [s.replace(old, new)] for a one-character [old]. *)
Fixpoint replace (old : ascii) (new : string) (s : string) : string :=
  match s with
  | EmptyString => EmptyString
  | String c s' =>
      if Ascii.eqb c old then String.append new (replace old new s')
      else String c (replace old new s')
  end.

(** [sub in s]. *)
Fixpoint contains (sub s : string) : bool :=
  String.prefix sub s ||
  match s with
  | EmptyString => false
  | String _ s' => contains sub s'
  end.

(** [s.title()]: a letter that follows a letter is lowered, any other
    letter is raised. *)
Fixpoint title_from (prev_cased : bool) (s : string) : string :=
  match s with
  | EmptyString => EmptyString
  | String c s' =>
      if is_upper c || is_lower c
      then String (if prev_cased then lower_char c else upper_char c)
                  (title_from true s')
      else String c (title_from false s')
  end.

Definition title (s : string) : string := title_from false s.

(** ** Dictionaries *)

Definition dict (V : Type) : Type := list (string * V).

Fixpoint dict_get {V : Type} (d : dict V) (k : string) : option V :=
  match d with
  | [] => None
  | (k', v) :: d' => if String.eqb k' k then Some v else dict_get d' k
  end.

Definition dict_mem {V : Type} (d : dict V) (k : string) : bool :=
  match dict_get d k with
  | Some _ => true
  | None => false
  end.

(** [d[k] = v]: an existing key keeps its place, a new key goes last. *)
Fixpoint dict_set {V : Type} (d : dict V) (k : string) (v : V) : dict V :=
  match d with
  | [] => [(k, v)]
  | (k', v') :: d' =>
      if String.eqb k' k then (k', v) :: d' else (k', v') :: dict_set d' k v
  end.

Definition dict_keys {V : Type} (d : dict V) : list string := map fst d.

(** ** Sets of strings *)

Definition set_mem (x : string) (s : list string) : bool :=
  existsb (String.eqb x) s.

Definition set_add (s : list string) (x : string) : list string :=
  if set_mem x s then s else s ++ [x].

(** [s.update(items)]. *)
Definition set_update (s items : list string) : list string :=
  fold_left set_add items s.

(** ** The biomarker registry *)

(** An entry of [BIOMARKER_RULES].  The ['insights'] texts of an entry are
    read by no function of the file and are left out. *)
Record BiomarkerRule : Type := mkBiomarkerRule {
  unit_ : string;
  acceptable_range : string;
  acceptable_min : Q;
  acceptable_max : Q;
  high_threshold : Q;
  keywords : list string
}.

Definition BIOMARKER_RULES : dict BiomarkerRule :=
  [ ("glucose",
      mkBiomarkerRule "mg/dL" "70-100" 70 100 126
        ["glucose"; "blood glucose"; "fasting glucose"; "random glucose"]);
    ("hba1c",
      mkBiomarkerRule "%" "4.0-5.6" 4.0 5.6 6.5
        ["hba1c"; "hemoglobin a1c"; "glycated hemoglobin"; "a1c"]);
    ("total_cholesterol",
      mkBiomarkerRule "mg/dL" "<200" 0 200 240
        ["total cholesterol"; "cholesterol total"; "chol total"; "tc"]);
    ("ldl",
      mkBiomarkerRule "mg/dL" "<100" 0 100 160
        ["ldl"; "ldl cholesterol"; "low density lipoprotein"; "bad cholesterol"]);
    ("hdl",
      mkBiomarkerRule "mg/dL" ">40 (M), >50 (F)" 40 1000 1000
        ["hdl"; "hdl cholesterol"; "high density lipoprotein"; "good cholesterol"]);
    ("hemoglobin",
      mkBiomarkerRule "g/dL" "12-18" 12 18 20
        ["hemoglobin"; "hgb"; "hb"; "haemoglobin"]);
    ("hematocrit",
      mkBiomarkerRule "%" "36-50" 36 50 55
        ["hematocrit"; "hct"; "packed cell volume"; "pcv"]);
    ("tsh",
      mkBiomarkerRule "mIU/L" "0.4-4.0" 0.4 4.0 10.0
        ["tsh"; "thyroid stimulating hormone"; "thyrotropin"]);
    ("vitamin_d",
      mkBiomarkerRule "ng/mL" "30-100" 30 100 150
        ["vitamin d"; "vit d"; "25-hydroxyvitamin d"; "25(oh)d"; "cholecalciferol"]);
    ("vitamin_b12",
      mkBiomarkerRule "pg/mL" "200-900" 200 900 1000
        ["vitamin b12"; "vit b12"; "cobalamin"; "b-12"]);
    ("vitamin_c",
      mkBiomarkerRule "mg/dL" "0.6-2.0" 0.6 2.0 3.0
        ["vitamin c"; "vit c"; "ascorbic acid"; "ascorbate"]);
    ("vitamin_a",
      mkBiomarkerRule "μg/dL" "20-60" 20 60 100
        ["vitamin a"; "vit a"; "retinol"; "beta carotene"]);
    ("systolic_bp",
      mkBiomarkerRule "mmHg" "90-120" 90 120 140
        ["systolic"; "systolic blood pressure"; "sbp"; "sys bp"]);
    ("diastolic_bp",
      mkBiomarkerRule "mmHg" "60-80" 60 80 90
        ["diastolic"; "diastolic blood pressure"; "dbp"; "dias bp"]);
    ("heart_rate",
      mkBiomarkerRule "bpm" "60-100" 60 100 120
        ["heart rate"; "pulse"; "hr"; "beats per minute"; "bpm"]);
    ("creatinine",
      mkBiomarkerRule "mg/dL" "0.6-1.3" 0.6 1.3 2.0
        ["creatinine"; "serum creatinine"; "creat"]) ].

(** ** The range classifier *)

Definition calculate_optimal_range (acceptable_min acceptable_max : Q) : Q * Q :=
  let range_size := acceptable_max - acceptable_min in
  let margin := range_size / 5 in
  let optimal_min := acceptable_min + margin in
  let optimal_max := acceptable_max - margin in
  (optimal_min, optimal_max).

(** The record [analyze_biomarker] returns.  Its ['optimal_range'] and
    ['insight'] entries are display texts made by formatting floats; they
    are read by nothing and are left out. *)
Record Analysis : Type := mkAnalysis {
  a_name : string;
  a_value : Q;
  a_unit : string;
  a_acceptable_range : string;
  a_status : string;
  a_status_category : string;
  a_is_optimal : bool
}.

(** The branch taken by the [if]/[elif] chain of [analyze_biomarker]:
    the pair of ['status'] and ['status_category']. *)
Definition classify (rules : BiomarkerRule) (value : Q) : string * string :=
  let (optimal_min, optimal_max) :=
    calculate_optimal_range (acceptable_min rules) (acceptable_max rules) in
  if between optimal_min value optimal_max then
    ("Optimal", "optimal")
  else if between (acceptable_min rules) value (acceptable_max rules) then
    if Qltb value optimal_min then ("Below Optimal", "below_optimal")
    else if Qltb optimal_max value then ("Above Optimal", "above_optimal")
    else ("Optimal", "optimal")
  else if Qltb value (acceptable_min rules) then
    ("Below Acceptable", "below_acceptable")
  else if Qltb (acceptable_max rules) value then
    if Qleb (high_threshold rules) value
    then ("Significantly High", "significantly_high")
    else ("Above Acceptable", "above_acceptable")
  else
    ("Normal", "optimal").

Definition analyze_biomarker (biomarker_key : string) (value : Q) : option Analysis :=
  match dict_get BIOMARKER_RULES biomarker_key with
  | None => None
  | Some rules =>
      let (status, status_category) := classify rules value in
      Some {| a_name := title (replace "_" " " biomarker_key);
              a_value := value;
              a_unit := unit_ rules;
              a_acceptable_range := acceptable_range rules;
              a_status := status;
              a_status_category := status_category;
              a_is_optimal := String.eqb status_category "optimal" |}
  end.

(** The closed enumeration of status categories. *)
Definition STATUS_CATEGORIES : list string :=
  [ "optimal"; "below_optimal"; "above_optimal"; "below_acceptable";
    "above_acceptable"; "significantly_high"; "unknown" ].

(** ** The disease rules *)

(** The ['value'] of a condition: a number, or a list [[lo, hi]]. *)
Inductive threshold : Type :=
| TNum (t : Q)
| TList (l : list Q).

Record Condition : Type := mkCondition {
  biomarker : string;
  operator : string;
  value : threshold
}.

Record DiseaseRule : Type := mkDiseaseRule {
  name : string;
  conditions : list Condition;
  logic : string;
  priority : string;
  reasoning : string;
  symptoms : list string
}.

Definition DISEASE_RULES : dict DiseaseRule :=
  [ ("diabetes_type_2",
      mkDiseaseRule "Type 2 Diabetes"
        [ mkCondition "glucose" ">=" (TNum 126);
          mkCondition "hba1c" ">=" (TNum 6.5) ]
        "OR" "High Risk"
        "Elevated glucose and/or HbA1c levels indicate diabetes."
        ["Increased thirst"; "Frequent urination"; "Fatigue";
         "Blurred vision"; "Slow wound healing"; "Unexplained weight loss"]);
    ("prediabetes",
      mkDiseaseRule "Prediabetes"
        [ mkCondition "glucose" "between" (TList [100; 125]);
          mkCondition "hba1c" "between" (TList [5.7; 6.4]) ]
        "OR" "Medium Risk"
        "Blood sugar levels are higher than normal but not yet diabetic."
        ["Mild fatigue"; "Occasional increased thirst";
         "Slight weight changes"; "Increased appetite"]);
    ("high_glucose",
      mkDiseaseRule "Elevated Blood Glucose"
        [ mkCondition "glucose" "between" (TList [110; 125]) ]
        "AND" "Medium Risk"
        "Glucose levels are above normal range, indicating potential metabolic issues."
        ["Mild fatigue"; "Increased thirst"; "Frequent urination";
         "Sugar cravings"]);
    ("cardiovascular_risk",
      mkDiseaseRule "Cardiovascular Disease Risk"
        [ mkCondition "total_cholesterol" ">=" (TNum 240);
          mkCondition "ldl" ">=" (TNum 160);
          mkCondition "hdl" "<=" (TNum 35) ]
        "OR" "High Risk"
        "Abnormal cholesterol levels significantly increase heart disease risk."
        ["Chest pain"; "Shortness of breath"; "Fatigue";
         "Leg pain when walking"; "Dizziness"]);
    ("moderate_cardiovascular_risk",
      mkDiseaseRule "Moderate Cardiovascular Risk"
        [ mkCondition "total_cholesterol" "between" (TList [200; 239]);
          mkCondition "ldl" "between" (TList [130; 159]);
          mkCondition "hdl" "between" (TList [35; 45]) ]
        "OR" "Medium Risk"
        "Borderline cholesterol levels warrant monitoring and lifestyle changes."
        ["Mild chest discomfort"; "Occasional fatigue";
         "Exercise intolerance"; "Mild shortness of breath"]);
    ("high_cholesterol",
      mkDiseaseRule "High Cholesterol"
        [ mkCondition "total_cholesterol" ">=" (TNum 200) ]
        "AND" "Medium Risk"
        "Total cholesterol above recommended levels increases cardiovascular risk."
        ["No obvious symptoms"; "Potential fatigue";
         "Chest tightness during exercise"]);
    ("iron_deficiency_anemia",
      mkDiseaseRule "Iron Deficiency Anemia"
        [ mkCondition "hemoglobin" "<" (TNum 12);
          mkCondition "hematocrit" "<" (TNum 36) ]
        "OR" "Medium Risk"
        "Low hemoglobin and hematocrit levels suggest iron deficiency anemia."
        ["Fatigue"; "Weakness"; "Pale skin"; "Cold hands and feet";
         "Restless legs"; "Brittle nails"]);
    ("mild_anemia",
      mkDiseaseRule "Mild Anemia"
        [ mkCondition "hemoglobin" "between" (TList [12; 13.5]);
          mkCondition "hematocrit" "between" (TList [36; 40]) ]
        "OR" "Low Risk"
        "Hemoglobin levels are on the lower end of normal range."
        ["Mild fatigue"; "Occasional weakness"; "Slight pale appearance"]);
    ("hypothyroidism",
      mkDiseaseRule "Hypothyroidism"
        [ mkCondition "tsh" ">" (TNum 4.0) ]
        "AND" "Medium Risk"
        "Elevated TSH levels indicate an underactive thyroid gland."
        ["Fatigue"; "Weight gain"; "Cold sensitivity"; "Dry skin";
         "Hair loss"; "Depression"; "Constipation"]);
    ("borderline_hypothyroidism",
      mkDiseaseRule "Borderline Hypothyroidism"
        [ mkCondition "tsh" "between" (TList [3.0; 4.0]) ]
        "AND" "Low Risk"
        "TSH levels are in the upper normal range, may indicate early thyroid dysfunction."
        ["Mild fatigue"; "Slight weight gain"; "Mild cold sensitivity"]);
    ("hyperthyroidism",
      mkDiseaseRule "Hyperthyroidism"
        [ mkCondition "tsh" "<" (TNum 0.4) ]
        "AND" "Medium Risk"
        "Low TSH levels indicate an overactive thyroid gland."
        ["Weight loss"; "Rapid heartbeat"; "Nervousness"; "Sweating";
         "Heat sensitivity"; "Irritability"]);
    ("metabolic_syndrome_risk",
      mkDiseaseRule "Metabolic Syndrome Risk"
        [ mkCondition "glucose" ">=" (TNum 100);
          mkCondition "hdl" "<=" (TNum 50);
          mkCondition "total_cholesterol" ">=" (TNum 200) ]
        "AND" "High Risk"
        "Combination of elevated glucose, low HDL, and high cholesterol suggests metabolic syndrome."
        ["Abdominal weight gain"; "Fatigue"; "Increased thirst";
         "High blood pressure symptoms"]);
    ("vitamin_d_deficiency",
      mkDiseaseRule "Vitamin D Deficiency"
        [ mkCondition "vitamin_d" "<" (TNum 20) ]
        "AND" "Medium Risk"
        "Severely low vitamin D levels increase risk of bone diseases and immune dysfunction."
        ["Bone pain"; "Muscle weakness"; "Frequent infections"; "Fatigue";
         "Depression"; "Hair loss"]);
    ("vitamin_d_insufficiency",
      mkDiseaseRule "Vitamin D Insufficiency"
        [ mkCondition "vitamin_d" "between" (TList [20; 29]) ]
        "AND" "Low Risk"
        "Suboptimal vitamin D levels may compromise bone health and immune function."
        ["Mild fatigue"; "Occasional muscle aches"; "Susceptibility to colds"]);
    ("vitamin_b12_deficiency",
      mkDiseaseRule "Vitamin B12 Deficiency"
        [ mkCondition "vitamin_b12" "<" (TNum 200) ]
        "AND" "High Risk"
        "B12 deficiency can cause serious neurological damage and pernicious anemia."
        ["Extreme fatigue"; "Memory problems"; "Confusion";
         "Tingling in hands/feet"; "Balance issues"; "Pale skin"]);
    ("low_vitamin_c",
      mkDiseaseRule "Vitamin C Deficiency"
        [ mkCondition "vitamin_c" "<" (TNum 0.6) ]
        "AND" "Medium Risk"
        "Low vitamin C increases risk of scurvy and compromises immune function."
        ["Easy bruising"; "Slow wound healing"; "Joint pain"; "Tooth loss";
         "Bleeding gums"]);
    ("hypertension_stage_1",
      mkDiseaseRule "Stage 1 Hypertension"
        [ mkCondition "systolic_bp" "between" (TList [130; 139]);
          mkCondition "diastolic_bp" "between" (TList [80; 89]) ]
        "OR" "Medium Risk"
        "Blood pressure is elevated and requires lifestyle modifications."
        ["Headaches"; "Dizziness"; "Shortness of breath"; "Nosebleeds";
         "Flushing"]);
    ("hypertension_stage_2",
      mkDiseaseRule "Stage 2 Hypertension"
        [ mkCondition "systolic_bp" ">=" (TNum 140);
          mkCondition "diastolic_bp" ">=" (TNum 90) ]
        "OR" "High Risk"
        "Significantly elevated blood pressure requires immediate medical attention."
        ["Severe headaches"; "Chest pain"; "Vision problems";
         "Difficulty breathing"; "Irregular heartbeat"]);
    ("hypotension",
      mkDiseaseRule "Low Blood Pressure (Hypotension)"
        [ mkCondition "systolic_bp" "<" (TNum 90);
          mkCondition "diastolic_bp" "<" (TNum 60) ]
        "OR" "Medium Risk"
        "Low blood pressure may cause inadequate blood flow to organs."
        ["Dizziness"; "Fainting"; "Fatigue"; "Nausea"; "Cold/clammy skin";
         "Blurred vision"]);
    ("tachycardia",
      mkDiseaseRule "Tachycardia (Rapid Heart Rate)"
        [ mkCondition "heart_rate" ">" (TNum 100) ]
        "AND" "Medium Risk"
        "Elevated resting heart rate may indicate cardiovascular stress or other conditions."
        ["Palpitations"; "Shortness of breath"; "Dizziness"; "Chest pain";
         "Fatigue"]);
    ("bradycardia",
      mkDiseaseRule "Bradycardia (Slow Heart Rate)"
        [ mkCondition "heart_rate" "<" (TNum 60) ]
        "AND" "Low Risk"
        "Low heart rate may be normal for athletes or indicate cardiac conduction issues."
        ["Fatigue"; "Dizziness"; "Weakness"; "Confusion"; "Fainting spells"]);
    ("kidney_dysfunction",
      mkDiseaseRule "Kidney Dysfunction"
        [ mkCondition "creatinine" ">" (TNum 1.3) ]
        "AND" "High Risk"
        "Elevated creatinine indicates reduced kidney function."
        ["Decreased urination"; "Swelling in legs/ankles"; "Fatigue";
         "Nausea"; "Confusion"]) ].

(** A comparison of a float with the ['value'] of a condition; comparing
    with a list raises. *)
Definition compare_with (cmp : Q -> Q -> bool) (v : Q) (threshold : threshold)
  : result bool :=
  match threshold with
  | TNum t => Ok (cmp v t)
  | TList _ => Raise TypeError
  end.

(** [threshold[i]]. *)
Definition subscript (threshold : threshold) (i : nat) : result Q :=
  match threshold with
  | TNum _ => Raise TypeError
  | TList l =>
      match nth_error l i with
      | Some x => Ok x
      | None => Raise IndexError
      end
  end.

Definition evaluate_disease_condition (condition : Condition)
  (biomarkers : dict Q) : result bool :=
  let biomarker_key := biomarker condition in
  let operator := operator condition in
  let threshold := value condition in
  match dict_get biomarkers biomarker_key with
  | None => Ok false
  | Some value =>
      if String.eqb operator ">=" then
        compare_with (fun v t => Qleb t v) value threshold
      else if String.eqb operator "<=" then
        compare_with (fun v t => Qleb v t) value threshold
      else if String.eqb operator ">" then
        compare_with (fun v t => Qltb t v) value threshold
      else if String.eqb operator "<" then
        compare_with (fun v t => Qltb v t) value threshold
      else if String.eqb operator "==" || String.eqb operator "=" then
        match threshold with
        | TNum t => Ok (Qeqb value t)
        | TList _ => Ok false
        end
      else if String.eqb operator "between" then
        lo <- subscript threshold 0 ;;
        if Qleb lo value
        then hi <- subscript threshold 1 ;; Ok (Qleb value hi)
        else Ok false
      else
        Ok false
  end.

(** An entry of the list [detect_diseases] returns. *)
Record Detected : Type := mkDetected {
  d_name : string;
  d_priority : string;
  d_reasoning : string
}.

Definition detected_of (disease_info : DiseaseRule) : Detected :=
  mkDetected (name disease_info) (priority disease_info) (reasoning disease_info).

(** The value of [disease_detected] for one rule. *)
Definition rule_fires (disease_info : DiseaseRule) (biomarkers : dict Q)
  : result bool :=
  condition_results <-
    mapM (fun condition => evaluate_disease_condition condition biomarkers)
         (conditions disease_info) ;;
  if String.eqb (logic disease_info) "AND" then
    Ok (forallb (fun b => b) condition_results)
  else if String.eqb (logic disease_info) "OR" then
    Ok (existsb (fun b => b) condition_results)
  else
    Ok false.

(** The first loop of [detect_diseases], over the rules in table order. *)
Fixpoint fired_rules (rules : dict DiseaseRule) (biomarkers : dict Q)
  : result (list Detected) :=
  match rules with
  | [] => Ok []
  | (disease_key, disease_info) :: rules' =>
      disease_detected <- rule_fires disease_info biomarkers ;;
      rest <- fired_rules rules' biomarkers ;;
      Ok (if disease_detected then detected_of disease_info :: rest else rest)
  end.

(** The loop that computes [all_optimal]; keys outside the registry are
    passed over. *)
Definition all_optimal (biomarkers : dict Q) : bool :=
  forallb
    (fun kv : string * Q =>
       let (biomarker_key, value) := kv in
       match dict_get BIOMARKER_RULES biomarker_key with
       | None => true
       | Some rules =>
           let (optimal_min, optimal_max) :=
             calculate_optimal_range (acceptable_min rules) (acceptable_max rules) in
           between optimal_min value optimal_max
       end)
    biomarkers.

Definition EVERYTHING_FINE : Detected :=
  mkDetected "Everything Fine" "Excellent Health"
    "All biomarkers are within optimal ranges. No potential health conditions detected.".

Definition HEALTH_MONITORING : Detected :=
  mkDetected "Health Monitoring Recommended" "Monitor"
    "Some biomarkers are outside optimal ranges but no specific diseases detected. Continue monitoring and consider lifestyle improvements.".

Definition priority_order : dict nat :=
  [ ("High Risk", 0%nat); ("Medium Risk", 1%nat); ("Low Risk", 2%nat);
    ("Monitor", 3%nat); ("Excellent Health", 4%nat) ].

Definition priority_rank (x : Detected) : nat :=
  match dict_get priority_order (d_priority x) with
  | Some n => n
  | None => 5%nat
  end.

(** [list.sort(key=...)] is stable: an entry goes after the entries whose
    rank is not greater. *)
Fixpoint insert_by_rank (x : Detected) (l : list Detected) : list Detected :=
  match l with
  | [] => [x]
  | y :: l' =>
      if Nat.ltb (priority_rank x) (priority_rank y) then x :: l
      else y :: insert_by_rank x l'
  end.

Definition sort_by_priority (l : list Detected) : list Detected :=
  fold_left (fun sorted x => insert_by_rank x sorted) l [].

Definition detect_diseases (biomarkers : dict Q) : result (list Detected) :=
  fired <- fired_rules DISEASE_RULES biomarkers ;;
  let detected_diseases :=
    match fired with
    | [] => if all_optimal biomarkers then [EVERYTHING_FINE] else [HEALTH_MONITORING]
    | _ :: _ => fired
    end in
  Ok (sort_by_priority detected_diseases).

(** ** The symptom aggregator *)

Definition general_symptoms : dict (dict (list string)) :=
  [ ("glucose",
      [ ("high",
          ["Increased thirst"; "Frequent urination"; "Fatigue";
           "Blurred vision"]);
        ("borderline",
          ["Mild fatigue"; "Occasional thirst"; "Sugar cravings"]) ]);
    ("total_cholesterol",
      [ ("high",
          ["No obvious symptoms initially"; "Potential chest discomfort";
           "Exercise fatigue"]);
        ("borderline",
          ["Mild exercise intolerance"; "Occasional fatigue"]) ]);
    ("ldl",
      [ ("high",
          ["Chest tightness during exercise"; "Shortness of breath";
           "Fatigue"]);
        ("borderline",
          ["Mild chest discomfort during activity"]) ]);
    ("hdl",
      [ ("low",
          ["Increased cardiovascular risk symptoms"; "Exercise intolerance"]);
        ("borderline",
          ["Mild fatigue during physical activity"]) ]);
    ("hemoglobin",
      [ ("low",
          ["Fatigue"; "Weakness"; "Pale skin"; "Cold hands and feet";
           "Shortness of breath"]);
        ("borderline",
          ["Mild fatigue"; "Occasional weakness"; "Slight paleness"]) ]);
    ("hematocrit",
      [ ("low",
          ["Fatigue"; "Weakness"; "Dizziness"; "Cold sensitivity"]);
        ("borderline",
          ["Mild fatigue"; "Occasional dizziness"]) ]);
    ("tsh",
      [ ("high",
          ["Fatigue"; "Weight gain"; "Cold sensitivity"; "Dry skin";
           "Hair thinning"]);
        ("low",
          ["Weight loss"; "Rapid heartbeat"; "Nervousness"; "Sweating";
           "Heat sensitivity"]);
        ("borderline_high",
          ["Mild fatigue"; "Slight weight gain"; "Mild cold sensitivity"]);
        ("borderline_low",
          ["Mild nervousness"; "Slight weight loss"; "Mild heat sensitivity"]) ]);
    ("hba1c",
      [ ("high",
          ["Fatigue"; "Increased thirst"; "Frequent urination";
           "Slow healing"]);
        ("borderline",
          ["Mild fatigue"; "Occasional increased appetite"]) ]);
    ("vitamin_d",
      [ ("low",
          ["Bone pain"; "Muscle weakness"; "Frequent infections";
           "Depression"]);
        ("borderline",
          ["Mild fatigue"; "Occasional muscle aches"]) ]);
    ("vitamin_b12",
      [ ("low",
          ["Extreme fatigue"; "Memory problems"; "Tingling in hands/feet";
           "Balance issues"]);
        ("borderline",
          ["Mild fatigue"; "Occasional memory lapses"]) ]);
    ("vitamin_c",
      [ ("low",
          ["Easy bruising"; "Slow wound healing"; "Bleeding gums";
           "Joint pain"]);
        ("borderline",
          ["Mild bruising"; "Slower healing"]) ]);
    ("systolic_bp",
      [ ("high",
          ["Headaches"; "Dizziness"; "Shortness of breath"; "Chest pain"]);
        ("low",
          ["Dizziness"; "Fainting"; "Fatigue"]);
        ("borderline",
          ["Mild headaches"; "Occasional dizziness"]) ]);
    ("diastolic_bp",
      [ ("high",
          ["Headaches"; "Dizziness"; "Blurred vision"]);
        ("low",
          ["Light-headedness"; "Weakness"]);
        ("borderline",
          ["Mild dizziness"]) ]);
    ("heart_rate",
      [ ("high",
          ["Palpitations"; "Shortness of breath"; "Chest discomfort";
           "Dizziness"]);
        ("low",
          ["Fatigue"; "Dizziness"; "Weakness"]);
        ("borderline",
          ["Mild palpitations"; "Occasional fatigue"]) ]);
    ("creatinine",
      [ ("high",
          ["Decreased urination"; "Swelling in legs/ankles"; "Fatigue";
           "Nausea"]);
        ("borderline",
          ["Mild fatigue"; "Occasional swelling"]) ]) ].

(** [table.get(k, [])]. *)
Definition get_list (table : dict (list string)) (k : string) : list string :=
  match dict_get table k with
  | Some l => l
  | None => []
  end.

(** The symptoms of the first rule whose lowered name is [disease_name]. *)
Fixpoint symptoms_of_name (rules : dict DiseaseRule) (disease_name : string)
  : option (list string) :=
  match rules with
  | [] => None
  | (disease_key, disease_info) :: rules' =>
      if String.eqb (lower (name disease_info)) disease_name
      then Some (symptoms disease_info)
      else symptoms_of_name rules' disease_name
  end.

(** The state of the two loops of [get_symptoms]: the set [symptoms] and
    the flag of the loop. *)
Definition disease_step (st : list string * bool) (disease : Detected)
  : list string * bool :=
  let (symptoms, disease_symptoms_added) := st in
  let disease_name := lower (d_name disease) in
  if existsb (String.eqb disease_name)
       ["everything fine"; "health monitoring recommended"]
  then st
  else
    match symptoms_of_name DISEASE_RULES disease_name with
    | Some l => (set_update symptoms l, true)
    | None => (symptoms, true)
    end.

Definition biomarker_step (st : list string * bool) (kv : string * Q)
  : list string * bool :=
  let (symptoms, biomarker_symptoms_added) := st in
  let (biomarker_key, value) := kv in
  match dict_get BIOMARKER_RULES biomarker_key,
        dict_get general_symptoms biomarker_key with
  | Some rules, Some table =>
      if Qleb (high_threshold rules) value then
        (set_update symptoms (get_list table "high"), true)
      else if Qltb (acceptable_max rules) value then
        (set_update symptoms (get_list table "borderline"), true)
      else if Qltb value (acceptable_min rules) then
        if String.eqb biomarker_key "tsh"
        then (set_update symptoms (get_list table "low"), true)
        else (set_update symptoms (get_list table "low"), true)
      else if String.eqb biomarker_key "tsh" && Qltb 3.0 value then
        (set_update symptoms (get_list table "borderline_high"), true)
      else if String.eqb biomarker_key "hdl" && Qltb value 50 then
        (set_update symptoms (get_list table "borderline"), true)
      else st
  | _, _ => st
  end.

Definition POSITIVE_HEALTH : list string :=
  [ "All biomarkers within optimal ranges - no symptoms to monitor";
    "Excellent overall health indicators";
    "Continue current healthy lifestyle practices";
    "Maintain regular health check-ups";
    "Stay active and eat a balanced diet" ].

Definition MONITOR_GENERAL : list string :=
  [ "Monitor general health indicators regularly";
    "Maintain healthy lifestyle practices";
    "Follow up with healthcare provider as needed";
    "Stay hydrated and get adequate sleep";
    "Continue regular exercise routine" ].

Definition GENERIC_GUIDANCE : list string :=
  [ "Regular health monitoring recommended";
    "Maintain balanced nutrition and exercise";
    "Consult healthcare provider for personalized advice" ].

Definition is_empty {A : Type} (l : list A) : bool :=
  match l with
  | [] => true
  | _ :: _ => false
  end.

(** The set [symptoms] and the two flags after both loops. *)
Definition symptom_union (detected_diseases : list Detected) (biomarkers : dict Q)
  : list string * bool * bool :=
  let (symptoms1, disease_symptoms_added) :=
    fold_left disease_step detected_diseases ([], false) in
  let (symptoms2, biomarker_symptoms_added) :=
    fold_left biomarker_step biomarkers (symptoms1, false) in
  (symptoms2, disease_symptoms_added, biomarker_symptoms_added).

Definition get_symptoms (detected_diseases : list Detected) (biomarkers : dict Q)
  : list string :=
  let '(symptoms, disease_symptoms_added, biomarker_symptoms_added) :=
    symptom_union detected_diseases biomarkers in
  let symptoms :=
    if is_empty symptoms && negb disease_symptoms_added
       && negb biomarker_symptoms_added
    then set_update symptoms POSITIVE_HEALTH
    else if is_empty symptoms
    then set_update symptoms MONITOR_GENERAL
    else symptoms in
  let symptoms_list := firstn 15 symptoms in
  let symptoms_list :=
    if Nat.ltb (List.length symptoms_list) 3
    then (symptoms_list ++ GENERIC_GUIDANCE)%list
    else symptoms_list in
  firstn 15 symptoms_list.

(** ** The recommendation generator *)

Definition RECOMMENDATION_TEMPLATES : dict (dict (list string)) :=
  [ ("diabetes_type_2",
      [ ("Professional Consultation",
          ["Schedule an appointment with an endocrinologist";
           "Regular monitoring with your primary care physician";
           "Consider diabetes education classes"]);
        ("Dietary",
          ["Follow a low-carbohydrate diet";
           "Monitor portion sizes and meal timing"; "Increase fiber intake";
           "Limit sugar and processed foods"]);
        ("Lifestyle",
          ["Engage in regular physical activity (150 minutes/week)";
           "Monitor blood glucose regularly"; "Maintain a healthy weight";
           "Manage stress levels"]) ]);
    ("cardiovascular_risk",
      [ ("Professional Consultation",
          ["Consult with a cardiologist";
           "Discuss statin therapy with your doctor";
           "Regular blood pressure monitoring"]);
        ("Dietary",
          ["Adopt a Mediterranean or DASH diet";
           "Reduce saturated and trans fats"; "Increase omega-3 fatty acids";
           "Limit sodium intake"]);
        ("Lifestyle",
          ["Regular aerobic exercise"; "Quit smoking if applicable";
           "Maintain a healthy weight"; "Limit alcohol consumption"]) ]);
    ("iron_deficiency_anemia",
      [ ("Professional Consultation",
          ["See a hematologist for further evaluation";
           "Investigate underlying causes of iron deficiency";
           "Regular follow-up blood tests"]);
        ("Dietary",
          ["Increase iron-rich foods (lean meats, spinach, beans)";
           "Combine iron foods with vitamin C sources";
           "Consider iron supplements as prescribed";
           "Avoid coffee and tea with iron-rich meals"]);
        ("Lifestyle",
          ["Adequate rest and sleep"; "Gradual increase in physical activity";
           "Monitor symptoms closely"]) ]);
    ("thyroid_disorders",
      [ ("Professional Consultation",
          ["Consult with an endocrinologist";
           "Regular thyroid function monitoring";
           "Discuss medication options"]);
        ("Dietary",
          ["Ensure adequate iodine intake"; "Consider selenium-rich foods";
           "Maintain a balanced diet"]);
        ("Lifestyle",
          ["Manage stress levels"; "Regular sleep schedule";
           "Monitor symptoms"]) ]);
    ("general_wellness",
      [ ("Professional Consultation",
          ["Annual physical examination"; "Regular preventive screenings";
           "Discuss any concerns with your healthcare provider"]);
        ("Dietary",
          ["Maintain a balanced, nutritious diet"; "Stay hydrated";
           "Limit processed foods"]);
        ("Lifestyle",
          ["Regular physical activity"; "Adequate sleep (7-9 hours)";
           "Stress management"; "Avoid tobacco and limit alcohol"]) ]) ].

Definition template_key_of (disease_name : string) : option string :=
  if contains "diabetes" disease_name then Some "diabetes_type_2"
  else if contains "cardiovascular" disease_name then Some "cardiovascular_risk"
  else if contains "anemia" disease_name then Some "iron_deficiency_anemia"
  else if contains "thyroid" disease_name then Some "thyroid_disorders"
  else None.

(** [recommendations[category].update(items)]; a category that is not a
    key of [recommendations] raises. *)
Definition update_category (recommendations : dict (list string))
  (category : string) (items : list string) : result (dict (list string)) :=
  match dict_get recommendations category with
  | Some s => Ok (dict_set recommendations category (set_update s items))
  | None => Raise KeyError
  end.

(** The loop over [template.items()]; [cut] is applied to the items. *)
Fixpoint add_template (cut : list string -> list string)
  (template : dict (list string)) (recommendations : dict (list string))
  : result (dict (list string)) :=
  match template with
  | [] => Ok recommendations
  | (category, items) :: template' =>
      recommendations' <- update_category recommendations category (cut items) ;;
      add_template cut template' recommendations'
  end.

Fixpoint add_disease_templates (detected_diseases : list Detected)
  (recommendations : dict (list string)) : result (dict (list string)) :=
  match detected_diseases with
  | [] => Ok recommendations
  | disease :: rest =>
      let disease_name := lower (d_name disease) in
      recommendations' <-
        match template_key_of disease_name with
        | Some template_key =>
            match dict_get RECOMMENDATION_TEMPLATES template_key with
            | Some template => add_template (fun items => items) template recommendations
            | None => Ok recommendations
            end
        | None => Ok recommendations
        end ;;
      add_disease_templates rest recommendations'
  end.

Definition generate_recommendations (detected_diseases : list Detected)
  (biomarkers : dict Q) : result (dict (list string)) :=
  let recommendations : dict (list string) :=
    [ ("Professional Consultation", []); ("Dietary", []); ("Lifestyle", []) ] in
  recommendations <- add_disease_templates detected_diseases recommendations ;;
  if is_empty detected_diseases then
    match dict_get RECOMMENDATION_TEMPLATES "general_wellness" with
    | Some general_template =>
        add_template (firstn 2) general_template recommendations
    | None => Raise KeyError
    end
  else Ok recommendations.

(** ** The biomarker matcher and the structured source *)

(** A triple [(context, value, unit)] of [extract_numbers_from_text]. *)
Definition candidate : Type := string * Q * string.

Definition context_variations (context : string) : list string :=
  [ context;
    replace "_" " " context;
    replace " " "" context;
    replace "-" " " context;
    replace "/" " " context ].

(** The test of the innermost [if]. *)
Definition keyword_matches (keyword variation : string) : bool :=
  contains (lower keyword) (lower variation)
  || contains (lower variation) (lower keyword)
  || contains (replace "o" "0" (lower keyword)) (lower variation)
  || contains (replace "l" "1" (lower keyword)) (lower variation).

(** The loop over [context_variations], left at the first match; the
    result is the flag [matched]. *)
Fixpoint scan_variations (keyword : string) (variations : list string) : bool :=
  match variations with
  | [] => false
  | variation :: variations' =>
      if keyword_matches keyword variation then true
      else scan_variations keyword variations'
  end.

(** The loop over [keywords], left as soon as [matched] is set. *)
Fixpoint scan_keywords (keywords : list string) (variations : list string) : bool :=
  match keywords with
  | [] => false
  | keyword :: keywords' =>
      if scan_variations keyword variations then true
      else scan_keywords keywords' variations
  end.

(** The loop over [extracted_numbers] for one registry entry, left at the
    first candidate that sets [matched]. *)
Fixpoint scan_candidates (biomarker_key : string) (biomarker_info : BiomarkerRule)
  (extracted_numbers : list candidate) (biomarkers : dict Q) : dict Q :=
  match extracted_numbers with
  | [] => biomarkers
  | (context, value, unit) :: rest =>
      if scan_keywords (keywords biomarker_info) (context_variations context)
      then dict_set biomarkers biomarker_key value
      else scan_candidates biomarker_key biomarker_info rest biomarkers
  end.

(** The outer loop, over the entries of a registry in table order. *)
Definition match_registry (rules : dict BiomarkerRule)
  (extracted_numbers : list candidate) (biomarkers : dict Q) : dict Q :=
  fold_left
    (fun biomarkers (entry : string * BiomarkerRule) =>
       scan_candidates (fst entry) (snd entry) extracted_numbers biomarkers)
    rules biomarkers.

Definition match_candidates (extracted_numbers : list candidate) : dict Q :=
  match_registry BIOMARKER_RULES extracted_numbers [].

Definition name_mapping : dict string :=
  [ ("glucose", "glucose");
    ("total_cholesterol", "total_cholesterol");
    ("ldl_cholesterol", "ldl");
    ("hdl_cholesterol", "hdl");
    ("hemoglobin", "hemoglobin");
    ("hematocrit", "hematocrit");
    ("tsh", "tsh");
    ("hba1c", "hba1c");
    ("vitamin_d", "vitamin_d");
    ("vitamin_b12", "vitamin_b12");
    ("vitamin_c", "vitamin_c");
    ("vitamin_a", "vitamin_a");
    ("systolic_bp", "systolic_bp");
    ("diastolic_bp", "diastolic_bp");
    ("heart_rate", "heart_rate");
    ("creatinine", "creatinine") ].

(** [name.lower().replace(' ', '_').replace('-', '_')]. *)
Definition clean_name (csv_name : string) : string :=
  replace "-" "_" (replace " " "_" (lower csv_name)).

(** The loop of the last block of [standardize_biomarkers]. *)
Definition map_csv_names (data_source : dict Q) (biomarkers : dict Q) : dict Q :=
  fold_left
    (fun biomarkers (kv : string * Q) =>
       let (csv_name, value) := kv in
       match dict_get name_mapping (clean_name csv_name) with
       | Some key => dict_set biomarkers key value
       | None => biomarkers
       end)
    data_source biomarkers.

(** The argument [data_source]: a text or a dictionary. *)
Inductive data_source : Type :=
| Text (text : string)
| Table (d : dict Q).

Definition is_table (data_source : data_source) : bool :=
  match data_source with
  | Table _ => true
  | Text _ => false
  end.

Definition is_space (c : ascii) : bool :=
  let n := nat_of_ascii c in
  (Nat.leb 9 n && Nat.leb n 13) || (Nat.leb 28 n && Nat.leb n 32).

Fixpoint lstrip (s : string) : string :=
  match s with
  | EmptyString => EmptyString
  | String c s' => if is_space c then lstrip s' else s
  end.

Fixpoint rstrip (s : string) : string :=
  match s with
  | EmptyString => EmptyString
  | String c s' =>
      match rstrip s' with
      | EmptyString => if is_space c then EmptyString else String c EmptyString
      | r => String c r
      end
  end.

(** [s.strip()]. *)
Definition strip (s : string) : string := rstrip (lstrip s).

Section Readers.

(** The regular expressions of [extract_numbers_from_text] and the
    parser [float] are outside the model. *)
Variable extract_numbers_from_text : string -> list candidate.
Variable float_of_string : string -> option Q.

Definition standardize_biomarkers (data_source : data_source)
  (file_type : string) : dict Q :=
  if String.eqb file_type "csv" then
    match data_source with
    | Table d => d
    | Text _ => []
    end
  else
    match data_source with
    | Table _ => []
    | Text text =>
        let extracted_numbers := extract_numbers_from_text text in
        let biomarkers := match_candidates extracted_numbers in
        if String.eqb file_type "csv" && is_table data_source then
          match data_source with
          | Table d => map_csv_names d biomarkers
          | Text _ => biomarkers
          end
        else biomarkers
    end.

(** The loop of [parse_csv_file] over the rows below the header. *)
Definition parse_csv_rows (name_col value_col : nat) (rows : list (list string))
  : dict Q :=
  fold_left
    (fun biomarkers (row : list string) =>
       if Nat.ltb (Nat.max name_col value_col) (List.length row) then
         match nth_error row name_col, nth_error row value_col with
         | Some name_cell, Some value_cell =>
             let biomarker_name := lower (strip name_cell) in
             let value_str := strip value_cell in
             match float_of_string value_str with
             | Some value =>
                 let biomarker_name :=
                   replace "-" "_" (replace " " "_" biomarker_name) in
                 dict_set biomarkers biomarker_name value
             | None => biomarkers
             end
         | _, _ => biomarkers
         end
       else biomarkers)
    rows [].

End Readers.

(** ** The merge of the sources and the report *)

(** A value of [all_biomarkers]: a float, or the list of the floats seen. *)
Inductive readings : Type :=
| One (v : Q)
| Many (l : list Q).

Definition merge_reading (all_biomarkers : dict readings) (kv : string * Q)
  : dict readings :=
  let (biomarker, value) := kv in
  match dict_get all_biomarkers biomarker with
  | Some (Many l) => dict_set all_biomarkers biomarker (Many (l ++ [value]))
  | Some (One v) => dict_set all_biomarkers biomarker (Many [v; value])
  | None => dict_set all_biomarkers biomarker (One value)
  end.

Definition merge_file (all_biomarkers : dict readings) (biomarkers : dict Q)
  : dict readings :=
  fold_left merge_reading biomarkers all_biomarkers.

Definition merge_files (files : list (dict Q)) : dict readings :=
  fold_left merge_file files [].

Definition SAMPLE_BIOMARKERS : dict readings :=
  [ ("glucose", One 115.0);
    ("total_cholesterol", One 220.0);
    ("hdl", One 38.0);
    ("ldl", One 145.0);
    ("hemoglobin", One 11.8);
    ("hematocrit", One 35.0);
    ("tsh", One 3.2);
    ("hba1c", One 5.9);
    ("vitamin_d", One 18.0);
    ("vitamin_b12", One 180.0);
    ("vitamin_c", One 0.4);
    ("vitamin_a", One 15.0);
    ("systolic_bp", One 135.0);
    ("diastolic_bp", One 85.0);
    ("heart_rate", One 105.0);
    ("creatinine", One 1.4) ].

(** [sum(values)]. *)
Definition sum (values : list Q) : Q := fold_left Qplus values 0.

(** [sum(values) / len(values)] for a list, the float itself otherwise. *)
Definition average (values : readings) : result Q :=
  match values with
  | One v => Ok v
  | Many l =>
      match l with
      | [] => Raise ZeroDivisionError
      | _ :: _ => Ok (sum l / inject_Z (Z.of_nat (List.length l)))
      end
  end.

Fixpoint average_all (all_biomarkers : dict readings) (final_biomarkers : dict Q)
  : result (dict Q) :=
  match all_biomarkers with
  | [] => Ok final_biomarkers
  | (biomarker, values) :: rest =>
      v <- average values ;;
      average_all rest (dict_set final_biomarkers biomarker v)
  end.

(** [final_biomarkers], from the maps of the processed files. *)
Definition merged_biomarkers (files : list (dict Q)) : result (dict Q) :=
  let all_biomarkers := merge_files files in
  let all_biomarkers :=
    if is_empty all_biomarkers then SAMPLE_BIOMARKERS else all_biomarkers in
  average_all all_biomarkers [].

Definition analyze_or_unknown (kv : string * Q) : Analysis :=
  let (biomarker_key, value) := kv in
  match analyze_biomarker biomarker_key value with
  | Some analysis => analysis
  | None =>
      {| a_name := title (replace "_" " " biomarker_key);
         a_value := value;
         a_unit := "";
         a_acceptable_range := "Not defined";
         a_status := "Detected";
         a_status_category := "unknown";
         a_is_optimal := false |}
  end.

Record Report : Type := mkReport {
  r_biomarkers : list Analysis;
  r_potential_diseases : list Detected;
  r_symptoms : list string;
  r_recommendations : dict (list string);
  r_files_processed : nat
}.

(** The body of [analyze_report] from the maps of the processed files on;
    an exception makes the route answer with an error. *)
Definition analyze_files (files : list (dict Q)) : result Report :=
  final_biomarkers <- merged_biomarkers files ;;
  let analyzed_biomarkers := map analyze_or_unknown final_biomarkers in
  detected_diseases <- detect_diseases final_biomarkers ;;
  let symptoms := get_symptoms detected_diseases final_biomarkers in
  recommendations <- generate_recommendations detected_diseases final_biomarkers ;;
  Ok {| r_biomarkers := analyzed_biomarkers;
        r_potential_diseases := detected_diseases;
        r_symptoms := symptoms;
        r_recommendations := recommendations;
        r_files_processed := List.length files |}.

(** ** The merge of the sources in binary64 *)

Set Warnings "-inexact-float".

Module Binary64.

(** A value of [all_biomarkers]: a float, or the list of the floats seen. *)
Inductive readings : Type :=
| One (v : float)
| Many (l : list float).

Definition merge_reading (all_biomarkers : dict readings) (kv : string * float)
  : dict readings :=
  let (biomarker, value) := kv in
  match dict_get all_biomarkers biomarker with
  | Some (Many l) => dict_set all_biomarkers biomarker (Many (l ++ [value]))
  | Some (One v) => dict_set all_biomarkers biomarker (Many [v; value])
  | None => dict_set all_biomarkers biomarker (One value)
  end.

Definition merge_file (all_biomarkers : dict readings) (biomarkers : dict float)
  : dict readings :=
  fold_left merge_reading biomarkers all_biomarkers.

Definition merge_files (files : list (dict float)) : dict readings :=
  fold_left merge_file files [].

Definition SAMPLE_BIOMARKERS : dict readings :=
  [ ("glucose", One 115.0%float);
    ("total_cholesterol", One 220.0%float);
    ("hdl", One 38.0%float);
    ("ldl", One 145.0%float);
    ("hemoglobin", One 11.8%float);
    ("hematocrit", One 35.0%float);
    ("tsh", One 3.2%float);
    ("hba1c", One 5.9%float);
    ("vitamin_d", One 18.0%float);
    ("vitamin_b12", One 180.0%float);
    ("vitamin_c", One 0.4%float);
    ("vitamin_a", One 15.0%float);
    ("systolic_bp", One 135.0%float);
    ("diastolic_bp", One 85.0%float);
    ("heart_rate", One 105.0%float);
    ("creatinine", One 1.4%float) ].

(** [sum(values)]: the floats are added from the left, starting at 0,
    each sum rounded to binary64. *)
Definition sum (values : list float) : float :=
  fold_left PrimFloat.add values 0%float.

(** [len(values)], as the float the division converts it to. *)
Definition len (values : list float) : float :=
  PrimFloat.of_uint63 (Uint63.of_Z (Z.of_nat (List.length values))).

(** [sum(values) / len(values)] for a list, the float itself otherwise. *)
Definition average (values : readings) : result float :=
  match values with
  | One v => Ok v
  | Many l =>
      match l with
      | [] => Raise ZeroDivisionError
      | _ :: _ => Ok (PrimFloat.div (sum l) (len l))
      end
  end.

Fixpoint average_all (all_biomarkers : dict readings) (final_biomarkers : dict float)
  : result (dict float) :=
  match all_biomarkers with
  | [] => Ok final_biomarkers
  | (biomarker, values) :: rest =>
      v <- average values ;;
      average_all rest (dict_set final_biomarkers biomarker v)
  end.

(** [final_biomarkers], from the maps of the processed files. *)
Definition merged_biomarkers (files : list (dict float)) : result (dict float) :=
  let all_biomarkers := merge_files files in
  let all_biomarkers :=
    if is_empty all_biomarkers then SAMPLE_BIOMARKERS else all_biomarkers in
  average_all all_biomarkers [].

(** The values a file gives for a key, and the ordered sequence of all
    the values observed for a key in the files. *)
Definition observed_in (key : string) (biomarkers : dict float) : list float :=
  map snd (filter (fun kv => String.eqb (fst kv) key) biomarkers).

Definition observed (key : string) (files : list (dict float)) : list float :=
  flat_map (observed_in key) files.

(** The values an entry of [all_biomarkers] stands for. *)
Definition values_of (r : option readings) : list float :=
  match r with
  | None => []
  | Some (One v) => [v]
  | Some (Many l) => l
  end.

(** The entries the merge builds: a list holds two values or more. *)
Definition entry_ok (e : string * readings) : Prop :=
  match snd e with
  | One _ => True
  | Many l => (2 <= List.length l)%nat
  end.

(** The float [average] returns for an entry. *)
Definition average_of (r : readings) : float :=
  match r with
  | One v => v
  | Many l => PrimFloat.div (sum l) (len l)
  end.


End Binary64.


(** ** Statements of the specification, for comparison with the code *)

(** The comparison a condition names, on the order of the rationals:
    [between] takes both ends in. *)
Inductive satisfies (v : Q) : string -> threshold -> Prop :=
| sat_ge (t : Q) : t <= v -> satisfies v ">=" (TNum t)
| sat_le (t : Q) : v <= t -> satisfies v "<=" (TNum t)
| sat_gt (t : Q) : t < v -> satisfies v ">" (TNum t)
| sat_lt (t : Q) : v < t -> satisfies v "<" (TNum t)
| sat_eq (t : Q) : v == t -> satisfies v "==" (TNum t)
| sat_between (lo hi : Q) : lo <= v -> v <= hi -> satisfies v "between" (TList [lo; hi]).

(** The conditions of the data model: one of the six operators, with a
    number, or with a pair of bounds for [between]. *)
Inductive well_formed : string -> threshold -> Prop :=
| wf_ge (t : Q) : well_formed ">=" (TNum t)
| wf_le (t : Q) : well_formed "<=" (TNum t)
| wf_gt (t : Q) : well_formed ">" (TNum t)
| wf_lt (t : Q) : well_formed "<" (TNum t)
| wf_eq (t : Q) : well_formed "==" (TNum t)
| wf_between (lo hi : Q) : well_formed "between" (TList [lo; hi]).

(** The status labels of the six bands. *)
Definition BAND_STATUSES : list string :=
  [ "Optimal"; "Below Optimal"; "Above Optimal"; "Below Acceptable";
    "Above Acceptable"; "Significantly High" ].

(** A condition passes on a map when it evaluates to true. *)
Definition passes (condition : Condition) (biomarkers : dict Q) : Prop :=
  evaluate_disease_condition condition biomarkers = Ok true.

(** An entry is reported for a map when [detect_diseases] returns a list
    that holds it. *)
Definition reported (x : Detected) (biomarkers : dict Q) : Prop :=
  exists l : list Detected, detect_diseases biomarkers = Ok l /\ In x l.

(** The decision of [well_formed]. *)
Definition well_formed_b (condition : Condition) : bool :=
  match value condition with
  | TNum _ =>
      existsb (String.eqb (operator condition)) [">="; "<="; ">"; "<"; "=="]
  | TList [_; _] => String.eqb (operator condition) "between"
  | TList _ => false
  end.

(** The value of a condition, false when the evaluation raises. *)
Definition holds (biomarkers : dict Q) (condition : Condition) : bool :=
  match evaluate_disease_condition condition biomarkers with
  | Ok b => b
  | Raise _ => false
  end.

(** The value of [disease_detected], false when the evaluation raises. *)
Definition fires (biomarkers : dict Q) (disease_info : DiseaseRule) : bool :=
  match rule_fires disease_info biomarkers with
  | Ok b => b
  | Raise _ => false
  end.

Fixpoint distinct (l : list string) : bool :=
  match l with
  | [] => true
  | x :: l' => negb (set_mem x l') && distinct l'
  end.

(** The checks on a table of rules that the proofs rely on: conditions of
    the data model, names that differ, priorities of diseases. *)
Definition rules_checked (rules : dict DiseaseRule) : bool :=
  forallb (fun e => forallb well_formed_b (conditions (snd e))) rules
  && distinct (map (fun e => name (snd e)) rules)
  && forallb
       (fun e => negb (String.eqb (priority (snd e)) "Excellent Health")
                 && negb (String.eqb (priority (snd e)) "Monitor"))
       rules.

(** A candidate context satisfies a registry entry when some pair of a
    keyword of the entry and a variation of the context passes the test. *)
Definition satisfying (biomarker_info : BiomarkerRule) (context : string) : Prop :=
  exists keyword variation : string,
    In keyword (keywords biomarker_info) /\
    In variation (context_variations context) /\
    keyword_matches keyword variation = true.

Definition context_of (c : candidate) : string := fst (fst c).

(** The values a file gives for a key, and the ordered sequence of all
    the values observed for a key in the files. *)
Definition observed_in (key : string) (biomarkers : dict Q) : list Q :=
  map snd (filter (fun kv => String.eqb (fst kv) key) biomarkers).

Definition observed (key : string) (files : list (dict Q)) : list Q :=
  flat_map (observed_in key) files.


(** The values an entry of [all_biomarkers] stands for. *)
Definition values_of (r : option readings) : list Q :=
  match r with
  | None => []
  | Some (One v) => [v]
  | Some (Many l) => l
  end.

(** The entries the merge builds: a list holds two values or more. *)
Definition entry_ok (e : string * readings) : Prop :=
  match snd e with
  | One _ => True
  | Many l => (2 <= List.length l)%nat
  end.

(** The float [average] returns for an entry. *)
Definition average_of (r : readings) : Q :=
  match r with
  | One v => v
  | Many l => sum l / inject_Z (Z.of_nat (List.length l))
  end.

(** The map the report is computed from when the files give no reading:
    the averages of [SAMPLE_BIOMARKERS]. *)
Definition SAMPLE_FINAL : dict Q :=
  map (fun e => (fst e, average_of (snd e))) SAMPLE_BIOMARKERS.

(** The report of a batch without readings as the specification words
    it: no classified biomarker, and one of the two fallback conditions. *)
Definition empty_batch_gives_fallback_only (files : list (dict Q)) : Prop :=
  merge_files files = [] ->
  exists r : Report,
    analyze_files files = Ok r /\
    r_biomarkers r = [] /\
    (r_potential_diseases r = [EVERYTHING_FINE] \/
     r_potential_diseases r = [HEALTH_MONITORING]).


Definition EMPTY_BUCKETS : dict (list string) :=
  [ ("Professional Consultation", []); ("Dietary", []); ("Lifestyle", []) ].

(** The first two items of each bucket of the general-wellness template. *)
Definition GENERAL_WELLNESS_TOP2 : dict (list string) :=
  [ ("Professional Consultation",
      ["Annual physical examination"; "Regular preventive screenings"]);
    ("Dietary", ["Maintain a balanced, nutritious diet"; "Stay hydrated"]);
    ("Lifestyle", ["Regular physical activity"; "Adequate sleep (7-9 hours)"]) ].

(** ** Notions used by the further properties *)

(** The optimal band of a registry entry. *)
Definition optimal_band (rules : BiomarkerRule) : Q * Q :=
  calculate_optimal_range (acceptable_min rules) (acceptable_max rules).


(** The entries of the rules that fire, in table order. *)
Definition fired_list (biomarkers : dict Q) : list Detected :=
  map detected_of (filter (fires biomarkers) (map snd DISEASE_RULES)).

(** The order of two entries by priority rank. *)
Definition rank_le (x y : Detected) : Prop :=
  (priority_rank x <= priority_rank y)%nat.

Definition has_rank (r : nat) (x : Detected) : bool :=
  Nat.eqb (priority_rank x) r.

(** The check of the rules against the registry: every rule has a
    condition, and every condition reads a biomarker of the registry. *)
Definition biomarkers_checked (rules : dict DiseaseRule) : bool :=
  forallb
    (fun e =>
       negb (is_empty (conditions (snd e)))
       && forallb (fun c => dict_mem BIOMARKER_RULES (biomarker c))
            (conditions (snd e)))
    rules.


(** Every text of the two symptom tables. *)
Definition SYMPTOM_POOL : list string :=
  flat_map (fun e => symptoms (snd e)) DISEASE_RULES
  ++ flat_map (fun e => flat_map snd (snd e)) general_symptoms.

(** The set of symptoms has no duplicate and holds texts of the two
    tables only. *)
Definition symptoms_ok (st : list string * bool) : Prop :=
  NoDup (fst st) /\ forall x, In x (fst st) -> In x SYMPTOM_POOL.

(** The three buckets of the recommendations. *)
Definition BUCKETS : list string :=
  [ "Professional Consultation"; "Dietary"; "Lifestyle" ].

(** The buckets are the three of [BUCKETS], in that order, and none holds
    an item twice. *)
Definition buckets_ok (recommendations : dict (list string)) : Prop :=
  dict_keys recommendations = BUCKETS /\
  Forall (fun e => NoDup (snd e)) recommendations.

(** The check of the templates: their categories are buckets. *)
Definition templates_checked (templates : dict (dict (list string))) : bool :=
  forallb (fun t => forallb (fun e => set_mem (fst e) BUCKETS) (snd t)) templates.

(** Every item of [recommendations] is an item of [recommendations']. *)
Definition included (recommendations recommendations' : dict (list string)) : Prop :=
  forall c s x, dict_get recommendations c = Some s -> In x s ->
                exists s', dict_get recommendations' c = Some s' /\ In x s'.

(** Some candidate of the sequence passes the test of a registry entry. *)
Definition claimed (extracted_numbers : list candidate)
  (entry : string * BiomarkerRule) : bool :=
  existsb
    (fun c => scan_keywords (keywords (snd entry))
                (context_variations (context_of c)))
    extracted_numbers.

(** Every character of a string passes a test. *)
Fixpoint string_forall (p : ascii -> bool) (s : string) : bool :=
  match s with
  | EmptyString => true
  | String c s' => p c && string_forall p s'
  end.

(** A character of a cleaned name: no capital letter, space or hyphen. *)
Definition clean_char (c : ascii) : bool :=
  negb (is_upper c) && negb (Ascii.eqb c " ") && negb (Ascii.eqb c "-").

(** The entry a row of the file gives, when it gives one: the row is long
    enough and its value cell is read as a float. *)
Definition row_entry (float_of_string : string -> option Q)
  (name_col value_col : nat) (row : list string) : option (string * Q) :=
  if Nat.ltb (Nat.max name_col value_col) (List.length row) then
    match nth_error row name_col, nth_error row value_col with
    | Some name_cell, Some value_cell =>
        match float_of_string (strip value_cell) with
        | Some value => Some (clean_name (strip name_cell), value)
        | None => None
        end
    | _, _ => None
    end
  else None.

(** ** The file names *)

Definition ALLOWED_EXTENSIONS : list string :=
  [ "pdf"; "png"; "jpg"; "jpeg"; "csv" ].

(** [filename.rsplit('.', 1)[1]]: the text after the last dot, when there
    is a dot. *)
Fixpoint after_last_dot (filename : string) : option string :=
  match filename with
  | EmptyString => None
  | String c s' =>
      match after_last_dot s' with
      | Some ext => Some ext
      | None => if Ascii.eqb c "." then Some s' else None
      end
  end.

Definition allowed_file (filename : string) : bool :=
  contains "." filename &&
  match after_last_dot filename with
  | Some ext => set_mem (lower ext) ALLOWED_EXTENSIONS
  | None => false
  end.

Definition no_dot (c : ascii) : bool := negb (Ascii.eqb c ".").

(** The place of a status category in the order of the bands, from below
    the acceptable range up to significantly high. *)
Definition band_rank (category : string) : nat :=
  if String.eqb category "below_acceptable" then 0
  else if String.eqb category "below_optimal" then 1
  else if String.eqb category "optimal" then 2
  else if String.eqb category "above_optimal" then 3
  else if String.eqb category "above_acceptable" then 4
  else if String.eqb category "significantly_high" then 5
  else 6.

(** ** The header of a tabular file *)

Definition NAME_HEADERS : list string :=
  [ "biomarker"; "parameter"; "name"; "test" ].

Definition VALUE_HEADERS : list string := [ "value"; "result"; "level" ].

(** The loop over [enumerate(header)], left at the first column whose
    lowered and stripped title is in [names]; [i] is the index of the
    first column of [header]. *)
Fixpoint find_column (names : list string) (header : list string) (i : nat)
  : option nat :=
  match header with
  | [] => None
  | col :: header' =>
      if set_mem (strip (lower col)) names then Some i
      else find_column names header' (S i)
  end.

(** [name_col] and [value_col], with the fallback to the first and the
    second column. *)
Definition csv_columns (header : list string) : nat * nat :=
  (match find_column NAME_HEADERS header 0 with Some i => i | None => 0%nat end,
   match find_column VALUE_HEADERS header 0 with Some j => j | None => 1%nat end).

(** The body of [parse_csv_file] from the rows the reader returns; a file
    without header line, or with an empty one, gives the empty map. *)
Definition parse_csv_table (float_of_string : string -> option Q)
  (table : list (list string)) : dict Q :=
  match table with
  | [] => []
  | header :: rows =>
      if is_empty header then []
      else
        let (name_col, value_col) := csv_columns header in
        parse_csv_rows float_of_string name_col value_col rows
  end.


(** * Properties *)

Open Scope list_scope.

(** ** Comparisons *)

Lemma Qleb_le (x y : Q) : Qleb x y = true <-> x <= y.
Proof. unfold Qleb. apply Qle_bool_iff. Qed.

Lemma Qltb_lt (x y : Q) : Qltb x y = true <-> x < y.
Proof.
  unfold Qltb. rewrite negb_true_iff. split; intro H.
  - apply Qnot_le_lt. intro Hle. apply Qle_bool_iff in Hle. congruence.
  - destruct (Qle_bool y x) eqn:E; [|reflexivity].
    apply Qle_bool_iff in E. exfalso. exact (Qlt_not_le _ _ H E).
Qed.

Lemma Qeqb_eq (x y : Q) : Qeqb x y = true <-> x == y.
Proof. unfold Qeqb. apply Qeq_bool_iff. Qed.

Lemma Qleb_compat (x x' y y' : Q) : x == x' -> y == y' -> Qleb x y = Qleb x' y'.
Proof. intros Hx Hy. unfold Qleb. rewrite Hx, Hy. reflexivity. Qed.

Lemma Qltb_compat (x x' y y' : Q) : x == x' -> y == y' -> Qltb x y = Qltb x' y'.
Proof. intros Hx Hy. unfold Qltb. rewrite Hx, Hy. reflexivity. Qed.

(** ** The range classifier *)

Lemma classify_compat (rules : BiomarkerRule) (v v' : Q) :
  v == v' -> classify rules v = classify rules v'.
Proof.
  intro H. unfold classify, between.
  destruct (calculate_optimal_range _ _) as [omin omax].
  rewrite (Qleb_compat omin omin v v'), (Qleb_compat v v' omax omax),
    (Qleb_compat (acceptable_min rules) (acceptable_min rules) v v'),
    (Qleb_compat v v' (acceptable_max rules) (acceptable_max rules)),
    (Qltb_compat v v' omin omin), (Qltb_compat omax omax v v'),
    (Qltb_compat v v' (acceptable_min rules) (acceptable_min rules)),
    (Qltb_compat (acceptable_max rules) (acceptable_max rules) v v'),
    (Qleb_compat (high_threshold rules) (high_threshold rules) v v')
    by (assumption || reflexivity).
  reflexivity.
Qed.

(** The last [else] of the chain, with its label ['Normal'], is never
    reached, nor is the inner [else] of the acceptable band. *)
Lemma classify_in_bands (rules : BiomarkerRule) (v : Q) :
  In (fst (classify rules v)) BAND_STATUSES /\
  In (snd (classify rules v)) STATUS_CATEGORIES /\
  snd (classify rules v) <> "unknown".
Proof.
  unfold classify, between, Qltb, Qleb.
  destruct (calculate_optimal_range _ _) as [omin omax].
  destruct (Qle_bool omin v) eqn:E1; destruct (Qle_bool v omax) eqn:E2;
    destruct (Qle_bool (acceptable_min rules) v) eqn:E3;
    destruct (Qle_bool v (acceptable_max rules)) eqn:E4;
    destruct (Qle_bool (high_threshold rules) v) eqn:E5;
    simpl; (split; [tauto | split; [tauto | discriminate]]).
Qed.

(** C6: glucose has the acceptable range 70-100 and the high threshold
    126; the value 115 is classified "Above Acceptable", the value 126
    "Significantly High" (the threshold itself counts) and the value 80
    "Optimal". *)
Theorem glucose_classification :
  option_map (fun r => (acceptable_min r, acceptable_max r, high_threshold r))
    (dict_get BIOMARKER_RULES "glucose") = Some (70, 100, 126) /\
  option_map a_status (analyze_biomarker "glucose" 115) = Some "Above Acceptable" /\
  option_map a_status (analyze_biomarker "glucose" 126) = Some "Significantly High" /\
  option_map a_status (analyze_biomarker "glucose" 80) = Some "Optimal".
Proof. repeat split. Qed.

(** C7: range classification is total and deterministic.  For a key of
    the registry and any value the classifier returns one record; its
    status category is in the closed enumeration; no other record is
    returned for the same key and value, and an equal value gets the same
    status and category. *)
Theorem classification_total_deterministic (biomarker_key : string) (v : Q) :
  dict_mem BIOMARKER_RULES biomarker_key = true ->
  exists a : Analysis,
    analyze_biomarker biomarker_key v = Some a /\
    In (a_status_category a) STATUS_CATEGORIES /\
    In (a_status a) BAND_STATUSES /\
    (forall a', analyze_biomarker biomarker_key v = Some a' -> a' = a) /\
    (forall v', v == v' ->
       option_map (fun x => (a_status x, a_status_category x))
         (analyze_biomarker biomarker_key v')
       = Some (a_status a, a_status_category a)).
Proof.
  unfold dict_mem, analyze_biomarker.
  destruct (dict_get BIOMARKER_RULES biomarker_key) as [rules|]; [intros _|discriminate].
  pose proof (classify_in_bands rules v) as (Hs & Hc & _).
  destruct (classify rules v) as [status status_category] eqn:E.
  eexists. split; [reflexivity|]. simpl in *.
  repeat split; try assumption.
  - intros a' Ha'. congruence.
  - intros v' Hv. rewrite <- (classify_compat rules v v' Hv), E. reflexivity.
Qed.

Lemma classification_total_deterministic_witness :
  exists a : Analysis,
    analyze_biomarker "tsh" 3.2 = Some a /\
    In (a_status_category a) STATUS_CATEGORIES /\
    In (a_status a) BAND_STATUSES /\
    (forall a', analyze_biomarker "tsh" 3.2 = Some a' -> a' = a) /\
    (forall v', 3.2 == v' ->
       option_map (fun x => (a_status x, a_status_category x))
         (analyze_biomarker "tsh" v')
       = Some (a_status a, a_status_category a)).
Proof. apply (classification_total_deterministic "tsh" 3.2). reflexivity. Defined.

(** ** The evaluation of one condition *)

Lemma evaluate_absent (condition : Condition) (biomarkers : dict Q) :
  dict_get biomarkers (biomarker condition) = None ->
  evaluate_disease_condition condition biomarkers = Ok false.
Proof. intro H. unfold evaluate_disease_condition. rewrite H. reflexivity. Qed.

Lemma evaluate_present (condition : Condition) (biomarkers : dict Q) (v : Q) :
  dict_get biomarkers (biomarker condition) = Some v ->
  well_formed (operator condition) (value condition) ->
  exists b : bool,
    evaluate_disease_condition condition biomarkers = Ok b /\
    (b = true <-> satisfies v (operator condition) (value condition)).
Proof.
  intros Hget Hwf. unfold evaluate_disease_condition. rewrite Hget.
  destruct condition as [k op th]. simpl in *.
  inversion Hwf; subst; simpl.
  - eexists; split; [reflexivity|]. rewrite Qleb_le.
    split; [apply sat_ge | intro H; inversion H; assumption].
  - eexists; split; [reflexivity|]. rewrite Qleb_le.
    split; [apply sat_le | intro H; inversion H; assumption].
  - eexists; split; [reflexivity|]. rewrite Qltb_lt.
    split; [apply sat_gt | intro H; inversion H; assumption].
  - eexists; split; [reflexivity|]. rewrite Qltb_lt.
    split; [apply sat_lt | intro H; inversion H; assumption].
  - eexists; split; [reflexivity|]. rewrite Qeqb_eq.
    split; [apply sat_eq | intro H; inversion H; assumption].
  - destruct (Qleb lo v) eqn:Elo; simpl.
    + eexists; split; [reflexivity|]. rewrite Qleb_le. apply Qleb_le in Elo.
      split; [apply sat_between; assumption | intro H; inversion H; assumption].
    + eexists; split; [reflexivity|].
      split; [discriminate|]. intro H; inversion H; subst.
      match goal with Hle : lo <= v |- _ => apply Qleb_le in Hle; congruence end.
Qed.

(** C9: a condition whose biomarker is not a key of the map evaluates to
    false and raises nothing; when the biomarker has a value, a condition
    of the data model evaluates, without raising, to the truth of the
    comparison its operator names, [between] taking both bounds in. *)
Theorem evaluate_disease_condition_correct (condition : Condition)
  (biomarkers : dict Q) :
  (dict_get biomarkers (biomarker condition) = None ->
   evaluate_disease_condition condition biomarkers = Ok false) /\
  (forall v : Q,
     dict_get biomarkers (biomarker condition) = Some v ->
     well_formed (operator condition) (value condition) ->
     exists b : bool,
       evaluate_disease_condition condition biomarkers = Ok b /\
       (b = true <-> satisfies v (operator condition) (value condition))).
Proof.
  split.
  - apply evaluate_absent.
  - intro v. apply evaluate_present.
Qed.

Lemma evaluate_disease_condition_correct_witness :
  evaluate_disease_condition (mkCondition "tsh" ">" (TNum 4.0)) [("glucose", 90)]
  = Ok false /\
  exists b : bool,
    evaluate_disease_condition (mkCondition "tsh" "between" (TList [3.0; 4.0]))
      [("tsh", 4.0)] = Ok b /\
    (b = true <-> satisfies 4.0 "between" (TList [3.0; 4.0])).
Proof.
  split.
  - apply (proj1 (evaluate_disease_condition_correct
                    (mkCondition "tsh" ">" (TNum 4.0)) [("glucose", 90)])).
    reflexivity.
  - apply (proj2 (evaluate_disease_condition_correct
                    (mkCondition "tsh" "between" (TList [3.0; 4.0]))
                    [("tsh", 4.0)]) 4.0).
    + reflexivity.
    + apply wf_between.
Defined.

(** ** The rule evaluator *)

Lemma well_formed_b_sound (condition : Condition) :
  well_formed_b condition = true ->
  well_formed (operator condition) (value condition).
Proof.
  destruct condition as [k op th]. unfold well_formed_b. simpl.
  destruct th as [t | [| lo [| hi [|]]]]; try discriminate.
  - rewrite !orb_true_iff, !String.eqb_eq.
    intros [E | [E | [E | [E | [E | E]]]]]; try discriminate; subst; constructor.
  - rewrite String.eqb_eq. intros ->. constructor.
Qed.

Lemma evaluate_total (condition : Condition) (biomarkers : dict Q) :
  well_formed_b condition = true ->
  evaluate_disease_condition condition biomarkers = Ok (holds biomarkers condition).
Proof.
  intro Hwf. apply well_formed_b_sound in Hwf. unfold holds.
  destruct (dict_get biomarkers (biomarker condition)) as [v|] eqn:E.
  - destruct (evaluate_present condition biomarkers v E Hwf) as (b & -> & _).
    reflexivity.
  - rewrite (evaluate_absent condition biomarkers E). reflexivity.
Qed.

Lemma mapM_evaluate (conditions : list Condition) (biomarkers : dict Q) :
  forallb well_formed_b conditions = true ->
  mapM (fun condition => evaluate_disease_condition condition biomarkers) conditions
  = Ok (map (holds biomarkers) conditions).
Proof.
  induction conditions as [| c cs IH]; simpl; [reflexivity|].
  rewrite andb_true_iff. intros [Hc Hcs].
  rewrite (evaluate_total c biomarkers Hc). simpl. rewrite (IH Hcs). reflexivity.
Qed.

Lemma forallb_id_map {A : Type} (f : A -> bool) (l : list A) :
  forallb (fun b => b) (map f l) = forallb f l.
Proof. induction l; simpl; congruence. Qed.

Lemma existsb_id_map {A : Type} (f : A -> bool) (l : list A) :
  existsb (fun b => b) (map f l) = existsb f l.
Proof. induction l; simpl; congruence. Qed.

Lemma rule_fires_total (disease_info : DiseaseRule) (biomarkers : dict Q) :
  forallb well_formed_b (conditions disease_info) = true ->
  rule_fires disease_info biomarkers = Ok (fires biomarkers disease_info) /\
  (logic disease_info = "AND" ->
   fires biomarkers disease_info = forallb (holds biomarkers) (conditions disease_info)) /\
  (logic disease_info = "OR" ->
   fires biomarkers disease_info = existsb (holds biomarkers) (conditions disease_info)).
Proof.
  intro Hwf. unfold fires, rule_fires.
  rewrite (mapM_evaluate _ biomarkers Hwf). simpl.
  rewrite forallb_id_map, existsb_id_map.
  split; [|split].
  - destruct (String.eqb (logic disease_info) "AND");
      [|destruct (String.eqb (logic disease_info) "OR")]; reflexivity.
  - intro E. rewrite E. reflexivity.
  - intro E. rewrite E. reflexivity.
Qed.

Lemma fired_rules_total (rules : dict DiseaseRule) (biomarkers : dict Q) :
  forallb (fun e => forallb well_formed_b (conditions (snd e))) rules = true ->
  fired_rules rules biomarkers
  = Ok (map detected_of (filter (fires biomarkers) (map snd rules))).
Proof.
  induction rules as [| [k r] rules IH]; simpl; [reflexivity|].
  rewrite andb_true_iff. intros [Hr Hrs].
  destruct (rule_fires_total r biomarkers Hr) as (-> & _). simpl.
  rewrite (IH Hrs). simpl. destruct (fires biomarkers r); reflexivity.
Qed.

Lemma insert_by_rank_In (x y : Detected) (l : list Detected) :
  In y (insert_by_rank x l) <-> y = x \/ In y l.
Proof.
  induction l as [| z l IH]; simpl.
  - intuition congruence.
  - destruct (Nat.ltb (priority_rank x) (priority_rank z)); simpl.
    + intuition congruence.
    + rewrite IH. intuition congruence.
Qed.

Lemma sort_by_priority_In (y : Detected) (l : list Detected) :
  In y (sort_by_priority l) <-> In y l.
Proof.
  unfold sort_by_priority.
  assert (G : forall acc, In y (fold_left (fun sorted x => insert_by_rank x sorted) l acc)
                          <-> In y acc \/ In y l).
  { induction l as [| x l IH]; intro acc; simpl.
    - tauto.
    - rewrite IH, insert_by_rank_In. intuition congruence. }
  rewrite G. simpl. tauto.
Qed.

Lemma set_mem_In (x : string) (l : list string) : set_mem x l = true <-> In x l.
Proof.
  unfold set_mem. rewrite existsb_exists. split.
  - intros (y & Hy & E). apply String.eqb_eq in E. subst. assumption.
  - intro H. exists x. split; [assumption | apply String.eqb_refl].
Qed.

Lemma distinct_NoDup (l : list string) : distinct l = true -> NoDup l.
Proof.
  induction l as [| x l IH]; simpl; [constructor|].
  rewrite andb_true_iff, negb_true_iff. intros [Hx Hl].
  constructor; [|auto]. intro Hin. apply set_mem_In in Hin. congruence.
Qed.

Lemma NoDup_map_injective {A B : Type} (f : A -> B) (l : list A) (x y : A) :
  NoDup (map f l) -> In x l -> In y l -> f x = f y -> x = y.
Proof.
  induction l as [| a l IH]; simpl; [tauto|].
  intros Hnd Hx Hy E. inversion Hnd as [| ? ? Hnotin Hnd']; subst.
  destruct Hx as [-> | Hx]; destruct Hy as [-> | Hy]; auto.
  - exfalso. apply Hnotin. rewrite E. apply in_map. assumption.
  - exfalso. apply Hnotin. rewrite <- E. apply in_map. assumption.
Qed.

Lemma dict_get_In {V : Type} (d : dict V) (k : string) (v : V) :
  dict_get d k = Some v -> In (k, v) d.
Proof.
  induction d as [| [k' v'] d IH]; simpl; [discriminate|].
  destruct (String.eqb k' k) eqn:E.
  - apply String.eqb_eq in E. intros [= ->]. subst. left. reflexivity.
  - intro H. right. auto.
Qed.

(** Over a checked table a rule is reported exactly when it fires. *)
Lemma reported_iff_fires (biomarkers : dict Q) (k : string) (r : DiseaseRule) :
  dict_get DISEASE_RULES k = Some r ->
  exists l : list Detected,
    detect_diseases biomarkers = Ok l /\
    (In (detected_of r) l <-> fires biomarkers r = true).
Proof.
  intro Hk. apply dict_get_In in Hk.
  assert (Hchk : rules_checked DISEASE_RULES = true) by (vm_compute; reflexivity).
  unfold rules_checked in Hchk. rewrite !andb_true_iff in Hchk.
  destruct Hchk as [[Hwf Hnames] Hprio].
  unfold detect_diseases. rewrite (fired_rules_total _ biomarkers Hwf).
  unfold bind. eexists. split; [reflexivity|]. rewrite sort_by_priority_In.
  assert (Hr : In r (map snd DISEASE_RULES)) by (apply (in_map snd _ _ Hk)).
  set (fired := map detected_of (filter (fires biomarkers) (map snd DISEASE_RULES))).
  assert (Hfired : In (detected_of r) fired <-> fires biomarkers r = true).
  { unfold fired. rewrite in_map_iff. split.
    - intros (r' & E & Hin). apply filter_In in Hin. destruct Hin as [Hin Hf].
      assert (r' = r); [|subst; assumption].
      apply (NoDup_map_injective name (map snd DISEASE_RULES)); auto.
      + rewrite map_map. apply distinct_NoDup. assumption.
      + unfold detected_of in E. congruence.
    - intro Hf. exists r. split; [reflexivity|]. apply filter_In. auto. }
  destruct fired as [| d ds] eqn:Efired.
  - split.
    + intro Hin. exfalso.
      rewrite forallb_forall in Hprio. specialize (Hprio _ Hk). simpl in Hprio.
      rewrite andb_true_iff, !negb_true_iff, !String.eqb_neq in Hprio.
      destruct Hprio as [H1 H2].
      destruct (all_optimal biomarkers); simpl in Hin;
        destruct Hin as [E | []]; unfold detected_of in E;
        injection E as _ E _; congruence.
    + intro Hf. apply Hfired in Hf. destruct Hf.
  - exact Hfired.
Qed.

Lemma registry_well_formed (k : string) (r : DiseaseRule) :
  dict_get DISEASE_RULES k = Some r ->
  forallb well_formed_b (conditions r) = true.
Proof.
  intro Hk. apply dict_get_In in Hk.
  assert (Hwf : forallb (fun e => forallb well_formed_b (conditions (snd e)))
                  DISEASE_RULES = true) by (vm_compute; reflexivity).
  rewrite forallb_forall in Hwf. exact (Hwf _ Hk).
Qed.

Lemma passes_holds (condition : Condition) (biomarkers : dict Q) :
  well_formed_b condition = true ->
  passes condition biomarkers <-> holds biomarkers condition = true.
Proof.
  intro Hwf. unfold passes. rewrite (evaluate_total _ biomarkers Hwf).
  split; [intros [= ->] | intros ->]; reflexivity.
Qed.

(** C10: rule firing is monotone in the conditions.  An AND rule of the
    table is reported exactly when all its conditions pass, so when the
    rule is reported for a map and one of its passing conditions fails on
    another map, the rule is not in the result for that map; an OR rule is
    reported exactly when at least one of its conditions passes. *)
Theorem rule_firing_monotone (disease_key : string) (disease_info : DiseaseRule) :
  dict_get DISEASE_RULES disease_key = Some disease_info ->
  (logic disease_info = "AND" ->
   (forall biomarkers : dict Q,
      reported (detected_of disease_info) biomarkers <->
      forall condition, In condition (conditions disease_info) ->
                        passes condition biomarkers) /\
   (forall (biomarkers biomarkers' : dict Q) (condition : Condition),
      reported (detected_of disease_info) biomarkers ->
      In condition (conditions disease_info) ->
      passes condition biomarkers ->
      evaluate_disease_condition condition biomarkers' = Ok false ->
      exists l : list Detected,
        detect_diseases biomarkers' = Ok l /\ ~ In (detected_of disease_info) l)) /\
  (logic disease_info = "OR" ->
   forall biomarkers : dict Q,
     reported (detected_of disease_info) biomarkers <->
     exists condition, In condition (conditions disease_info) /\
                       passes condition biomarkers).
Proof.
  intro Hk. pose proof (registry_well_formed _ _ Hk) as Hwf.
  assert (Hwfc : forall c, In c (conditions disease_info) -> well_formed_b c = true).
  { rewrite forallb_forall in Hwf. exact Hwf. }
  assert (Hrep : forall m, reported (detected_of disease_info) m
                           <-> fires m disease_info = true).
  { intro m. destruct (reported_iff_fires m _ _ Hk) as (l & Hl & Hiff).
    unfold reported. split.
    - intros (l' & Hl' & Hin). apply Hiff. congruence.
    - intro Hf. exists l. split; [assumption | apply Hiff; assumption]. }
  split.
  - intro Hand.
    assert (Hall : forall m, reported (detected_of disease_info) m <->
                             forall c, In c (conditions disease_info) -> passes c m).
    { intro m. rewrite Hrep.
      destruct (rule_fires_total disease_info m Hwf) as (_ & Hf & _).
      rewrite (Hf Hand), forallb_forall. split; intros H c Hc.
      - apply passes_holds; auto.
      - apply passes_holds; auto. }
    split; [exact Hall|].
    intros m m' c _ Hc _ Hfail.
    destruct (reported_iff_fires m' _ _ Hk) as (l & Hl & Hiff).
    exists l. split; [assumption|]. intro Hin.
    assert (Hrm' : reported (detected_of disease_info) m') by (exists l; auto).
    pose proof (proj1 (Hall m') Hrm' c Hc) as Hpass.
    unfold passes in Hpass. congruence.
  - intros Hor m. rewrite Hrep.
    destruct (rule_fires_total disease_info m Hwf) as (_ & _ & Hf).
    rewrite (Hf Hor), existsb_exists. split; intros (c & Hc & Hp); exists c.
    + split; [assumption | apply passes_holds; auto].
    + split; [assumption | apply passes_holds; auto].
Qed.

Lemma rule_firing_monotone_witness :
  (exists l : list Detected,
     detect_diseases [("glucose", 90); ("hdl", 38); ("total_cholesterol", 220)] = Ok l /\
     ~ In (mkDetected "Metabolic Syndrome Risk" "High Risk"
             "Combination of elevated glucose, low HDL, and high cholesterol suggests metabolic syndrome.")
          l) /\
  (reported (mkDetected "Iron Deficiency Anemia" "Medium Risk"
               "Low hemoglobin and hematocrit levels suggest iron deficiency anemia.")
            [("hemoglobin", 11.8); ("hematocrit", 35.0)] <->
   exists condition,
     In condition [ mkCondition "hemoglobin" "<" (TNum 12);
                    mkCondition "hematocrit" "<" (TNum 36) ] /\
     passes condition [("hemoglobin", 11.8); ("hematocrit", 35.0)]).
Proof.
  split.
  - let o := eval vm_compute in (dict_get DISEASE_RULES "metabolic_syndrome_risk") in
    match o with
    | Some ?r =>
        pose proof (rule_firing_monotone "metabolic_syndrome_risk" r eq_refl) as H
    end.
    destruct H as [Hand _].
    apply (proj2 (Hand eq_refl)
             [("glucose", 115); ("hdl", 38); ("total_cholesterol", 220)]
             [("glucose", 90); ("hdl", 38); ("total_cholesterol", 220)]
             (mkCondition "glucose" ">=" (TNum 100))).
    + eexists. split; [vm_compute; reflexivity|]. left. reflexivity.
    + left. reflexivity.
    + vm_compute. reflexivity.
    + vm_compute. reflexivity.
  - let o := eval vm_compute in (dict_get DISEASE_RULES "iron_deficiency_anemia") in
    match o with
    | Some ?r =>
        pose proof (rule_firing_monotone "iron_deficiency_anemia" r eq_refl) as H
    end.
    destruct H as [_ Hor].
    exact (Hor eq_refl [("hemoglobin", 11.8); ("hematocrit", 35.0)]).
Defined.

(** ** Dictionaries *)

Lemma dict_get_set_same {V : Type} (d : dict V) (k : string) (v : V) :
  dict_get (dict_set d k v) k = Some v.
Proof.
  induction d as [| [k' v'] d IH]; simpl.
  - rewrite String.eqb_refl. reflexivity.
  - destruct (String.eqb k' k) eqn:E; simpl; rewrite E; auto.
Qed.

Lemma dict_get_set_other {V : Type} (d : dict V) (k k' : string) (v : V) :
  k <> k' -> dict_get (dict_set d k v) k' = dict_get d k'.
Proof.
  intro Hne. induction d as [| [k0 v0] d IH]; simpl.
  - apply String.eqb_neq in Hne. rewrite Hne. reflexivity.
  - destruct (String.eqb k0 k) eqn:E; simpl.
    + apply String.eqb_eq in E. subst k0.
      apply String.eqb_neq in Hne. rewrite Hne. reflexivity.
    + destruct (String.eqb k0 k'); auto.
Qed.

Lemma dict_get_None_keys {V : Type} (d : dict V) (k : string) :
  dict_get d k = None <-> ~ In k (dict_keys d).
Proof.
  induction d as [| [k' v'] d IH]; simpl; [tauto|].
  destruct (String.eqb k' k) eqn:E.
  - apply String.eqb_eq in E. split; [discriminate | intro H; exfalso; auto].
  - apply String.eqb_neq in E. rewrite IH. tauto.
Qed.

Lemma dict_get_app_right {V : Type} (d1 d2 : dict V) (k : string) :
  ~ In k (dict_keys d1) -> dict_get (d1 ++ d2) k = dict_get d2 k.
Proof.
  induction d1 as [| [k' v'] d1 IH]; simpl; [reflexivity|].
  intro H. destruct (String.eqb k' k) eqn:E.
  - apply String.eqb_eq in E. exfalso. auto.
  - apply IH. tauto.
Qed.

(** ** The biomarker matcher *)

Lemma scan_variations_true (keyword : string) (variations : list string) :
  scan_variations keyword variations = true <->
  exists variation, In variation variations /\ keyword_matches keyword variation = true.
Proof.
  induction variations as [| v vs IH]; simpl.
  - split; [discriminate | intros (? & [] & _)].
  - destruct (keyword_matches keyword v) eqn:E.
    + split; [intros _; exists v; auto | reflexivity].
    + rewrite IH. split; intros (x & Hin & Hx).
      * exists x. auto.
      * destruct Hin as [-> | Hin]; [congruence | exists x; auto].
Qed.

Lemma scan_keywords_satisfying (biomarker_info : BiomarkerRule) (context : string) :
  scan_keywords (keywords biomarker_info) (context_variations context) = true <->
  satisfying biomarker_info context.
Proof.
  unfold satisfying. generalize (context_variations context) as vars.
  generalize (keywords biomarker_info) as kws.
  intros kws vars. induction kws as [| k ks IH]; simpl.
  - split; [discriminate | intros (? & ? & [] & _)].
  - destruct (scan_variations k vars) eqn:E.
    + apply scan_variations_true in E. destruct E as (v & Hv & Hm).
      split; [intros _; exists k, v; auto | reflexivity].
    + rewrite IH. split; intros (kw & v & Hk & Hv & Hm).
      * exists kw, v. auto.
      * destruct Hk as [-> | Hk]; [|exists kw, v; auto].
        assert (scan_variations kw vars = true)
          by (apply scan_variations_true; exists v; auto).
        congruence.
Qed.

Lemma scan_candidates_none (key : string) (info : BiomarkerRule)
  (cands : list candidate) (acc : dict Q) :
  (forall c, In c cands -> ~ satisfying info (context_of c)) ->
  scan_candidates key info cands acc = acc.
Proof.
  induction cands as [| [[ctx v] u] cands IH]; simpl; [reflexivity|].
  intro H. destruct (scan_keywords _ _) eqn:E.
  - apply scan_keywords_satisfying in E. exfalso.
    exact (H (ctx, v, u) (or_introl eq_refl) E).
  - apply IH. intros c Hc. apply H. auto.
Qed.

Lemma scan_candidates_first (key : string) (info : BiomarkerRule)
  (before after : list candidate) (context : string) (value : Q) (unit : string)
  (acc : dict Q) :
  (forall c, In c before -> ~ satisfying info (context_of c)) ->
  satisfying info context ->
  scan_candidates key info (before ++ (context, value, unit) :: after) acc
  = dict_set acc key value.
Proof.
  intros Hbefore Hsat.
  induction before as [| [[ctx v] u] before IH]; simpl.
  - apply scan_keywords_satisfying in Hsat. rewrite Hsat. reflexivity.
  - destruct (scan_keywords _ _) eqn:E.
    + apply scan_keywords_satisfying in E. exfalso.
      exact (Hbefore (ctx, v, u) (or_introl eq_refl) E).
    + apply IH. intros c Hc. apply Hbefore. right. assumption.
Qed.

(** The scan of an entry leaves the other keys as they are. *)
Lemma scan_candidates_other (key key' : string) (info : BiomarkerRule)
  (cands : list candidate) (acc : dict Q) :
  key <> key' ->
  dict_get (scan_candidates key info cands acc) key' = dict_get acc key'.
Proof.
  intro Hne. induction cands as [| [[ctx v] u] cands IH]; simpl; [reflexivity|].
  destruct (scan_keywords _ _); [apply dict_get_set_other; assumption | assumption].
Qed.

Lemma match_registry_other (rules : dict BiomarkerRule) (cands : list candidate)
  (acc : dict Q) (key : string) :
  ~ In key (dict_keys rules) ->
  dict_get (match_registry rules cands acc) key = dict_get acc key.
Proof.
  unfold match_registry. revert acc.
  induction rules as [| [k info] rules IH]; intros acc Hnotin; simpl; [reflexivity|].
  simpl in Hnotin. rewrite IH by tauto.
  apply scan_candidates_other. tauto.
Qed.

Lemma match_registry_app (r1 r2 : dict BiomarkerRule) (cands : list candidate)
  (acc : dict Q) :
  match_registry (r1 ++ r2) cands acc
  = match_registry r2 cands (match_registry r1 cands acc).
Proof. unfold match_registry. apply fold_left_app. Qed.

Lemma registry_keys_distinct : NoDup (dict_keys BIOMARKER_RULES).
Proof. apply distinct_NoDup. vm_compute. reflexivity. Qed.

Lemma dict_get_split {V : Type} (d : dict V) (k : string) (v : V) :
  dict_get d k = Some v ->
  exists d1 d2, d = d1 ++ (k, v) :: d2 /\ ~ In k (dict_keys d1).
Proof.
  induction d as [| [k' v'] d IH]; simpl; [discriminate|].
  destruct (String.eqb k' k) eqn:E.
  - apply String.eqb_eq in E. intros [= ->]. subst.
    exists [], d. split; [reflexivity | simpl; tauto].
  - intro H. destruct (IH H) as (d1 & d2 & -> & Hnot).
    exists ((k', v') :: d1), d2. split; [reflexivity|].
    apply String.eqb_neq in E. simpl. tauto.
Qed.

(** The value of a key after the whole pass is the value set by the scan
    of its own entry, started from a map without the key. *)
Lemma match_registry_at (earlier later : dict BiomarkerRule) (key : string)
  (info : BiomarkerRule) (cands : list candidate) :
  BIOMARKER_RULES = earlier ++ (key, info) :: later ->
  dict_get (match_registry earlier cands []) key = None /\
  dict_get (match_registry (earlier ++ [(key, info)]) cands []) key
  = dict_get (match_candidates cands) key /\
  dict_get (match_candidates cands) key
  = dict_get (scan_candidates key info cands (match_registry earlier cands [])) key.
Proof.
  intro Hsplit. pose proof registry_keys_distinct as Hnd.
  rewrite Hsplit in Hnd. unfold dict_keys in Hnd. rewrite map_app in Hnd. simpl in Hnd.
  pose proof (NoDup_remove_2 _ _ _ Hnd) as Hnotin.
  rewrite in_app_iff in Hnotin.
  assert (He : ~ In key (dict_keys earlier)) by (unfold dict_keys; tauto).
  assert (Hl : ~ In key (dict_keys later)) by (unfold dict_keys; tauto).
  assert (Hfinal : dict_get (match_candidates cands) key
                   = dict_get (scan_candidates key info cands
                                 (match_registry earlier cands [])) key).
  { unfold match_candidates. rewrite Hsplit.
    rewrite match_registry_app. unfold match_registry at 1. simpl.
    fold (match_registry later cands
            (scan_candidates key info cands (match_registry earlier cands []))).
    apply match_registry_other. assumption. }
  split; [|split].
  - rewrite match_registry_other by assumption. reflexivity.
  - rewrite Hfinal, match_registry_app. reflexivity.
  - exact Hfinal.
Qed.

(** C5: for every candidate sequence and every registry key, the first
    candidate, in candidate order, for which some pair of an alias and a
    variant passes the test gives the key its value; when no candidate has
    such a pair the key gets no value; and the key has no value before its
    own entry is scanned and keeps, to the end of the pass, the value it
    has after that scan. *)
Theorem first_match_wins (extracted_numbers : list candidate)
  (biomarker_key : string) (biomarker_info : BiomarkerRule) :
  dict_get BIOMARKER_RULES biomarker_key = Some biomarker_info ->
  (forall before context value unit after,
     extracted_numbers = before ++ (context, value, unit) :: after ->
     (forall c, In c before -> ~ satisfying biomarker_info (context_of c)) ->
     satisfying biomarker_info context ->
     dict_get (match_candidates extracted_numbers) biomarker_key = Some value) /\
  ((forall c, In c extracted_numbers -> ~ satisfying biomarker_info (context_of c)) ->
   dict_get (match_candidates extracted_numbers) biomarker_key = None) /\
  (forall earlier later,
     BIOMARKER_RULES = earlier ++ (biomarker_key, biomarker_info) :: later ->
     dict_get (match_registry earlier extracted_numbers []) biomarker_key = None /\
     dict_get (match_registry (earlier ++ [(biomarker_key, biomarker_info)])
                 extracted_numbers []) biomarker_key
     = dict_get (match_candidates extracted_numbers) biomarker_key).
Proof.
  intro Hk. destruct (dict_get_split _ _ _ Hk) as (earlier & later & Hsplit & _).
  destruct (match_registry_at earlier later biomarker_key biomarker_info
              extracted_numbers Hsplit) as (Hnone & _ & Hfinal).
  split; [|split].
  - intros before context value unit after -> Hbefore Hsat.
    rewrite Hfinal, (scan_candidates_first _ _ _ _ _ _ _ _ Hbefore Hsat).
    apply dict_get_set_same.
  - intro Hno. rewrite Hfinal, (scan_candidates_none _ _ _ _ Hno). exact Hnone.
  - intros earlier' later' Hsplit'.
    destruct (match_registry_at earlier' later' biomarker_key biomarker_info
                extracted_numbers Hsplit') as (H1 & H2 & _).
    split; assumption.
Qed.

Lemma first_match_wins_witness :
  dict_get (match_candidates
              [ ("blood sugar", 3, ""); ("fasting glucose", 99, "mg");
                ("glucose", 101, "mg") ]) "glucose" = Some 99.
Proof.
  refine (proj1 (first_match_wins _ "glucose" _ _)
            [("blood sugar", 3, "")] "fasting glucose" 99 "mg"
            [("glucose", 101, "mg")] _ _ _).
  - reflexivity.
  - reflexivity.
  - intros c [<- | []] Hsat. apply scan_keywords_satisfying in Hsat.
    vm_compute in Hsat. discriminate.
  - apply scan_keywords_satisfying. vm_compute. reflexivity.
Defined.

(** ** The merge of the sources *)

Lemma dict_set_keys {V : Type} (d : dict V) (k : string) (v : V) :
  dict_keys (dict_set d k v)
  = if dict_mem d k then dict_keys d else (dict_keys d ++ [k])%list.
Proof.
  unfold dict_mem. induction d as [| [k' v'] d IH]; simpl; [reflexivity|].
  destruct (String.eqb k' k) eqn:E; simpl.
  - reflexivity.
  - rewrite IH. destruct (dict_get d k); reflexivity.
Qed.

Lemma dict_set_NoDup {V : Type} (d : dict V) (k : string) (v : V) :
  NoDup (dict_keys d) -> NoDup (dict_keys (dict_set d k v)).
Proof.
  intro Hnd. rewrite dict_set_keys. unfold dict_mem.
  destruct (dict_get d k) eqn:E; [assumption|].
  apply dict_get_None_keys in E.
  apply NoDup_rev in Hnd. rewrite <- (rev_involutive (dict_keys d ++ [k])).
  apply NoDup_rev. rewrite rev_app_distr. simpl.
  constructor; [|assumption]. rewrite <- in_rev. assumption.
Qed.

Lemma dict_set_Forall {V : Type} (P : string * V -> Prop) (d : dict V)
  (k : string) (v : V) :
  (forall k', k' = k -> P (k', v)) -> Forall P d -> Forall P (dict_set d k v).
Proof.
  intros Hkv Hd. induction d as [| [k' v'] d IH]; simpl.
  - constructor; [apply Hkv; reflexivity | constructor].
  - inversion Hd; subst. destruct (String.eqb k' k) eqn:E.
    + apply String.eqb_eq in E. constructor; [apply Hkv; assumption | assumption].
    + constructor; auto.
Qed.

Lemma merge_reading_values (all_biomarkers : dict readings) (k key : string) (v : Q) :
  values_of (dict_get (merge_reading all_biomarkers (k, v)) key)
  = (values_of (dict_get all_biomarkers key)
     ++ if String.eqb k key then [v] else [])%list.
Proof.
  unfold merge_reading.
  destruct (String.eqb k key) eqn:E.
  - apply String.eqb_eq in E. subst key.
    destruct (dict_get all_biomarkers k) as [[v0 | l] |];
      rewrite dict_get_set_same; reflexivity.
  - apply String.eqb_neq in E. rewrite app_nil_r.
    destruct (dict_get all_biomarkers k) as [[v0 | l] |];
      rewrite dict_get_set_other by assumption; reflexivity.
Qed.

Lemma merge_reading_ok (all_biomarkers : dict readings) (kv : string * Q) :
  NoDup (dict_keys all_biomarkers) /\ Forall entry_ok all_biomarkers ->
  NoDup (dict_keys (merge_reading all_biomarkers kv)) /\
  Forall entry_ok (merge_reading all_biomarkers kv).
Proof.
  intros [Hnd Hok]. destruct kv as [k v]. unfold merge_reading.
  destruct (dict_get all_biomarkers k) as [[v0 | l] |] eqn:E.
  - split; [apply dict_set_NoDup; assumption|].
    apply dict_set_Forall; [|assumption]. intros k' _. unfold entry_ok. simpl. lia.
  - split; [apply dict_set_NoDup; assumption|].
    apply dict_set_Forall; [|assumption]. intros k' _.
    apply dict_get_In in E. rewrite Forall_forall in Hok. specialize (Hok _ E).
    unfold entry_ok in *. simpl in *. rewrite length_app. simpl. lia.
  - split; [apply dict_set_NoDup; assumption|].
    apply dict_set_Forall; [|assumption]. intros k' _. exact I.
Qed.

Lemma merge_file_values (biomarkers : dict Q) (all_biomarkers : dict readings)
  (key : string) :
  values_of (dict_get (merge_file all_biomarkers biomarkers) key)
  = (values_of (dict_get all_biomarkers key) ++ observed_in key biomarkers)%list.
Proof.
  unfold merge_file, observed_in. revert all_biomarkers.
  induction biomarkers as [| [k v] f IH]; intro acc.
  - simpl. rewrite app_nil_r. reflexivity.
  - cbn [fold_left]. rewrite IH, merge_reading_values. cbn [filter fst].
    destruct (String.eqb k key); cbn [map snd]; rewrite <- app_assoc; reflexivity.
Qed.

Lemma merge_file_ok (biomarkers : dict Q) (all_biomarkers : dict readings) :
  NoDup (dict_keys all_biomarkers) /\ Forall entry_ok all_biomarkers ->
  NoDup (dict_keys (merge_file all_biomarkers biomarkers)) /\
  Forall entry_ok (merge_file all_biomarkers biomarkers).
Proof.
  unfold merge_file. revert all_biomarkers.
  induction biomarkers as [| kv f IH]; intros acc H; simpl; [assumption|].
  apply IH. apply merge_reading_ok. assumption.
Qed.

Lemma merge_files_values (files : list (dict Q)) (key : string) :
  values_of (dict_get (merge_files files) key) = observed key files.
Proof.
  unfold merge_files, observed.
  assert (G : forall acc,
             values_of (dict_get (fold_left merge_file files acc) key)
             = (values_of (dict_get acc key) ++ flat_map (observed_in key) files)%list).
  { induction files as [| f files IH]; intro acc; simpl.
    - rewrite app_nil_r. reflexivity.
    - rewrite IH, merge_file_values, <- app_assoc. reflexivity. }
  rewrite G. reflexivity.
Qed.

Lemma merge_files_ok (files : list (dict Q)) :
  NoDup (dict_keys (merge_files files)) /\ Forall entry_ok (merge_files files).
Proof.
  unfold merge_files.
  assert (G : forall acc,
             NoDup (dict_keys acc) /\ Forall entry_ok acc ->
             NoDup (dict_keys (fold_left merge_file files acc)) /\
             Forall entry_ok (fold_left merge_file files acc)).
  { induction files as [| f files IH]; intros acc H; simpl; [assumption|].
    apply IH. apply merge_file_ok. assumption. }
  apply G. split; constructor.
Qed.

Lemma average_ok (k : string) (r : readings) :
  entry_ok (k, r) -> average r = Ok (average_of r).
Proof.
  unfold entry_ok. destruct r as [v | [| x l]]; simpl; try reflexivity. lia.
Qed.

Lemma average_all_lookup (all_biomarkers : dict readings) (acc : dict Q) :
  NoDup (dict_keys all_biomarkers) -> Forall entry_ok all_biomarkers ->
  exists final : dict Q,
    average_all all_biomarkers acc = Ok final /\
    forall key,
      dict_get final key
      = match dict_get all_biomarkers key with
        | Some r => Some (average_of r)
        | None => dict_get acc key
        end.
Proof.
  revert acc. induction all_biomarkers as [| [k r] rest IH]; intros acc Hnd Hok; simpl.
  - exists acc. auto.
  - inversion Hnd as [| ? ? Hnotin Hnd']; subst. inversion Hok as [| ? ? Hr Hok']; subst.
    rewrite (average_ok k r Hr). simpl.
    destruct (IH (dict_set acc k (average_of r)) Hnd' Hok') as (final & -> & Hget).
    exists final. split; [reflexivity|]. intro key. rewrite Hget.
    destruct (String.eqb k key) eqn:E.
    + apply String.eqb_eq in E. subst key.
      apply dict_get_None_keys in Hnotin. rewrite Hnotin.
      apply dict_get_set_same.
    + destruct (dict_get rest key); [reflexivity|].
      apply dict_get_set_other. apply String.eqb_neq. assumption.
Qed.

(** ** The merge of the sources in binary64 *)

Section Binary64Merge.

Import Binary64.









End Binary64Merge.




(** ** The symptom aggregator *)




(** ** The recommendation generator *)

Lemma detect_diseases_nonempty (biomarkers : dict Q) (l : list Detected) :
  detect_diseases biomarkers = Ok l -> l <> [].
Proof.
  unfold detect_diseases.
  destruct (fired_rules DISEASE_RULES biomarkers) as [fired | e]; simpl; [|discriminate].
  intros [= <-] Hnil.
  assert (Hx : exists x, In x (match fired with
                               | [] => if all_optimal biomarkers
                                       then [EVERYTHING_FINE] else [HEALTH_MONITORING]
                               | _ :: _ => fired
                               end)).
  { destruct fired as [| d ds]; [destruct (all_optimal biomarkers)|];
      eexists; left; reflexivity. }
  destruct Hx as (x & Hx). apply sort_by_priority_In in Hx.
  rewrite Hnil in Hx. destruct Hx.
Qed.

(** C2, on the code: glucose 85 fires no rule and the rule evaluator
    returns the single entry "Everything Fine"; the list is not empty, so
    the generator skips the general-wellness template and returns three
    empty buckets.  The first two items of each bucket are returned for
    the empty list only, and the rule evaluator never returns it. *)
Theorem general_wellness_skipped :
  detect_diseases [("glucose", 85)] = Ok [EVERYTHING_FINE] /\
  generate_recommendations [EVERYTHING_FINE] [("glucose", 85)] = Ok EMPTY_BUCKETS /\
  (forall biomarkers : dict Q,
     generate_recommendations [] biomarkers = Ok GENERAL_WELLNESS_TOP2) /\
  (forall (biomarkers : dict Q) (l : list Detected),
     detect_diseases biomarkers = Ok l -> l <> []).
Proof.
  split; [reflexivity|]. split; [reflexivity|]. split.
  - intro biomarkers. reflexivity.
  - apply detect_diseases_nonempty.
Qed.

(** ** The structured source *)

(** C3, on the code: for the file type ['csv'] the dictionary is returned
    as it is, the block that consults [name_mapping] is never reached, and
    the name "LDL Cholesterol", cleaned to [ldl_cholesterol], keeps that
    key although the table maps it to [ldl]; the reading is then reported
    with the category "unknown". *)
Theorem csv_names_not_remapped :
  (forall (extract : string -> list candidate) (d : dict Q),
     standardize_biomarkers extract (Table d) "csv" = d) /\
  (forall (extract : string -> list candidate) (text : string) (file_type : string),
     String.eqb file_type "csv" = false ->
     standardize_biomarkers extract (Text text) file_type
     = match_candidates (extract text)) /\
  parse_csv_rows (fun s => if String.eqb s "145" then Some 145 else None) 0 1
    [["LDL Cholesterol"; "145"]] = [("ldl_cholesterol", 145)] /\
  dict_get name_mapping (clean_name "LDL Cholesterol") = Some "ldl" /\
  a_status_category (analyze_or_unknown ("ldl_cholesterol", 145)) = "unknown" /\
  option_map a_status_category (analyze_biomarker "ldl" 145) = Some "above_acceptable".
Proof.
  split; [reflexivity|]. split.
  - intros extract text file_type E. unfold standardize_biomarkers. rewrite E.
    reflexivity.
  - repeat split.
Qed.

(** ** The report of a batch without readings *)

(** C1, as the specification states it, fails: one file without readings
    gives the report of the sample readings, with sixteen biomarkers. *)
Lemma empty_batch_gives_fallback_only_fails :
  ~ empty_batch_gives_fallback_only [[]].
Proof.
  intro H. destruct (H eq_refl) as (r & Hr & Hb & _).
  vm_compute in Hr. injection Hr as <-. discriminate Hb.
Qed.

(** C1, amended: for every batch whose merged map is empty the analysis
    raises nothing and puts the sixteen sample readings in the place of
    the empty map; the report classifies these sixteen readings and lists
    the thirteen conditions they fire.  The rule evaluator alone, on the
    empty map, returns the single entry "Everything Fine". *)
Theorem empty_batch_uses_sample (files : list (dict Q)) :
  merge_files files = [] ->
  merged_biomarkers files = Ok SAMPLE_FINAL /\
  (exists r : Report,
     analyze_files files = Ok r /\
     r_biomarkers r = map analyze_or_unknown SAMPLE_FINAL /\
     List.length (r_biomarkers r) = 16%nat /\
     map d_name (r_potential_diseases r)
     = [ "Metabolic Syndrome Risk"; "Vitamin B12 Deficiency"; "Kidney Dysfunction";
         "Prediabetes"; "Elevated Blood Glucose"; "Moderate Cardiovascular Risk";
         "High Cholesterol"; "Iron Deficiency Anemia"; "Vitamin D Deficiency";
         "Vitamin C Deficiency"; "Stage 1 Hypertension";
         "Tachycardia (Rapid Heart Rate)"; "Borderline Hypothyroidism" ]) /\
  detect_diseases [] = Ok [EVERYTHING_FINE].
Proof.
  intro H.
  assert (Hm : merged_biomarkers files = Ok SAMPLE_FINAL).
  { unfold merged_biomarkers. rewrite H. reflexivity. }
  split; [exact Hm|]. split; [|vm_compute; reflexivity].
  unfold analyze_files. rewrite Hm.
  eexists. split; [vm_compute; reflexivity|].
  split; [vm_compute; reflexivity|].
  split; vm_compute; reflexivity.
Qed.

Lemma empty_batch_uses_sample_witness :
  merged_biomarkers [[]] = Ok SAMPLE_FINAL /\
  (exists r : Report,
     analyze_files [[]] = Ok r /\
     r_biomarkers r = map analyze_or_unknown SAMPLE_FINAL /\
     List.length (r_biomarkers r) = 16%nat /\
     map d_name (r_potential_diseases r)
     = [ "Metabolic Syndrome Risk"; "Vitamin B12 Deficiency"; "Kidney Dysfunction";
         "Prediabetes"; "Elevated Blood Glucose"; "Moderate Cardiovascular Risk";
         "High Cholesterol"; "Iron Deficiency Anemia"; "Vitamin D Deficiency";
         "Vitamin C Deficiency"; "Stage 1 Hypertension";
         "Tachycardia (Rapid Heart Rate)"; "Borderline Hypothyroidism" ]) /\
  detect_diseases [] = Ok [EVERYTHING_FINE].
Proof. apply (empty_batch_uses_sample [[]]). reflexivity. Defined.

(** * Further properties of the code *)

(** ** The optimal band and the bands of the classifier *)

Lemma Qleb_false (x y : Q) : Qleb x y = false <-> y < x.
Proof.
  rewrite <- Qltb_lt. unfold Qltb, Qleb.
  destruct (Qle_bool x y); simpl; intuition congruence.
Qed.

Lemma Qltb_false (x y : Q) : Qltb x y = false <-> y <= x.
Proof.
  rewrite <- Qleb_le. unfold Qltb, Qleb.
  destruct (Qle_bool y x); simpl; intuition congruence.
Qed.

Lemma optimal_range_inside (lo hi : Q) :
  lo < hi ->
  lo < fst (calculate_optimal_range lo hi) /\
  fst (calculate_optimal_range lo hi) < snd (calculate_optimal_range lo hi) /\
  snd (calculate_optimal_range lo hi) < hi.
Proof.
  intro H. unfold calculate_optimal_range. simpl.
  assert (E : (hi - lo) / 5 == (hi - lo) * (1 # 5)) by (field).
  rewrite E. lra.
Qed.



(** Reflection of the comparisons of a goal into the order of [Q]. *)
Ltac reflect_comparison b :=
  let E := fresh "E" in
  destruct b eqn:E;
  [ first [ apply Qleb_le in E | apply Qltb_lt in E ]
  | first [ apply Qleb_false in E | apply Qltb_false in E ] ].

Lemma classify_bands (rules : BiomarkerRule) (v : Q) :
  acceptable_min rules < acceptable_max rules ->
  let omin := fst (optimal_band rules) in
  let omax := snd (optimal_band rules) in
  let category := snd (classify rules v) in
  (category = "optimal" <-> omin <= v /\ v <= omax) /\
  (category = "below_optimal" <-> acceptable_min rules <= v /\ v < omin) /\
  (category = "above_optimal" <-> omax < v /\ v <= acceptable_max rules) /\
  (category = "below_acceptable" <-> v < acceptable_min rules) /\
  (category = "above_acceptable" <->
     acceptable_max rules < v /\ v < high_threshold rules) /\
  (category = "significantly_high" <->
     acceptable_max rules < v /\ high_threshold rules <= v).
Proof.
  intro Hrange.
  destruct (optimal_range_inside _ _ Hrange) as (H1 & H2 & H3).
  unfold optimal_band, classify, between.
  destruct (calculate_optimal_range (acceptable_min rules) (acceptable_max rules))
    as [omin omax].
  simpl in H1, H2, H3. cbn [fst snd].
  repeat (match goal with
          | |- context [Qleb ?a ?b] => reflect_comparison (Qleb a b)
          | |- context [Qltb ?a ?b] => reflect_comparison (Qltb a b)
          end; cbn [andb]);
    cbn [snd];
    repeat split; intros; try discriminate; try lra;
    match goal with H : _ /\ _ |- _ => destruct H; lra end.
Qed.


Lemma classify_optimal_iff (rules : BiomarkerRule) (v : Q) :
  String.eqb (snd (classify rules v)) "optimal"
  = between (fst (optimal_band rules)) v (snd (optimal_band rules)).
Proof.
  unfold optimal_band, classify, between, Qltb, Qleb.
  destruct (calculate_optimal_range _ _) as [omin omax]. cbn [fst snd].
  destruct (Qle_bool omin v) eqn:E1; destruct (Qle_bool v omax) eqn:E2;
    destruct (Qle_bool (acceptable_min rules) v) eqn:E3;
    destruct (Qle_bool v (acceptable_max rules)) eqn:E4;
    destruct (Qle_bool (high_threshold rules) v) eqn:E5;
    reflexivity.
Qed.

Lemma analyze_biomarker_registered (k : string) (v : Q) (rules : BiomarkerRule) :
  dict_get BIOMARKER_RULES k = Some rules ->
  exists a : Analysis,
    analyze_biomarker k v = Some a /\
    a_value a = v /\
    a_unit a = unit_ rules /\
    a_status_category a = snd (classify rules v) /\
    a_is_optimal a = between (fst (optimal_band rules)) v (snd (optimal_band rules)).
Proof.
  intro Hk. unfold analyze_biomarker. rewrite Hk.
  pose proof (classify_optimal_iff rules v) as Hopt.
  destruct (classify rules v) as [status category]. cbn [snd] in Hopt.
  eexists. split; [reflexivity|]. cbn. auto.
Qed.







Lemma unknown_value_kept (biomarker_key : string) (v : Q) :
  (a_status_category (analyze_or_unknown (biomarker_key, v)) = "unknown" <->
   dict_get BIOMARKER_RULES biomarker_key = None) /\
  a_value (analyze_or_unknown (biomarker_key, v)) = v.
Proof.
  unfold analyze_or_unknown.
  destruct (dict_get BIOMARKER_RULES biomarker_key) as [rules|] eqn:Hk.
  - destruct (analyze_biomarker_registered biomarker_key v rules Hk)
      as (a & -> & Hv & _ & Hc & _).
    split; [|assumption]. rewrite Hc. split; [|discriminate].
    intro H. exfalso. exact (proj2 (proj2 (classify_in_bands rules v)) H).
  - unfold analyze_biomarker. rewrite Hk. cbn. split; [tauto | reflexivity].
Qed.

(** X4: a reading is reported with the category "unknown" exactly when
    its key is not in the registry, and the reported value is the reading
    itself in both cases. *)
Theorem unknown_iff_unregistered (biomarker_key : string) (v : Q) :
  (a_status_category (analyze_or_unknown (biomarker_key, v)) = "unknown" <->
   dict_get BIOMARKER_RULES biomarker_key = None) /\
  a_value (analyze_or_unknown (biomarker_key, v)) = v.
Proof.
  unfold analyze_or_unknown.
  destruct (dict_get BIOMARKER_RULES biomarker_key) as [rules|] eqn:Hk.
  - destruct (analyze_biomarker_registered biomarker_key v rules Hk)
      as (a & -> & Hv & _ & Hc & _).
    split; [|assumption]. rewrite Hc. split; [|discriminate].
    intro H. exfalso. exact (proj2 (proj2 (classify_in_bands rules v)) H).
  - unfold analyze_biomarker. rewrite Hk. cbn. split; [tauto | reflexivity].
Qed.

(** ** The result of the rule evaluator *)

Lemma rules_are_checked : rules_checked DISEASE_RULES = true.
Proof. vm_compute. reflexivity. Qed.

Lemma detect_diseases_eq (biomarkers : dict Q) :
  detect_diseases biomarkers
  = Ok (sort_by_priority
          match fired_list biomarkers with
          | [] => if all_optimal biomarkers
                  then [EVERYTHING_FINE] else [HEALTH_MONITORING]
          | _ :: _ => fired_list biomarkers
          end).
Proof.
  pose proof rules_are_checked as Hchk. unfold rules_checked in Hchk.
  rewrite !andb_true_iff in Hchk. destruct Hchk as [[Hwf _] _].
  unfold detect_diseases, fired_list.
  rewrite (fired_rules_total _ biomarkers Hwf). reflexivity.
Qed.

Lemma sort_by_priority_snoc (l : list Detected) (x : Detected) :
  sort_by_priority (l ++ [x]) = insert_by_rank x (sort_by_priority l).
Proof. unfold sort_by_priority. rewrite fold_left_app. reflexivity. Qed.

Lemma insert_by_rank_perm (x : Detected) (l : list Detected) :
  Permutation (insert_by_rank x l) (x :: l).
Proof.
  induction l as [| y l IH]; simpl; [apply Permutation_refl|].
  destruct (Nat.ltb (priority_rank x) (priority_rank y)).
  - apply Permutation_refl.
  - apply perm_trans with (y :: x :: l); [apply perm_skip; exact IH | apply perm_swap].
Qed.

Lemma sort_by_priority_perm (l : list Detected) :
  Permutation (sort_by_priority l) l.
Proof.
  induction l as [| x l IH] using rev_ind; [apply Permutation_refl|].
  rewrite sort_by_priority_snoc.
  apply perm_trans with (x :: sort_by_priority l); [apply insert_by_rank_perm|].
  apply perm_trans with (x :: l); [apply perm_skip; exact IH|].
  apply Permutation_cons_append.
Qed.

Lemma insert_by_rank_sorted (x : Detected) (l : list Detected) :
  StronglySorted rank_le l -> StronglySorted rank_le (insert_by_rank x l).
Proof.
  induction l as [| y l IH]; intro Hs; simpl.
  - constructor; constructor.
  - inversion Hs as [| ? ? Hl Hy]; subst.
    destruct (Nat.ltb (priority_rank x) (priority_rank y)) eqn:E.
    + apply Nat.ltb_lt in E. constructor; [assumption|].
      constructor; [unfold rank_le; lia|].
      rewrite Forall_forall in *. intros z Hz. specialize (Hy z Hz).
      unfold rank_le in *. lia.
    + apply Nat.ltb_ge in E. constructor; [apply IH; assumption|].
      rewrite Forall_forall in *. intros z Hz.
      apply insert_by_rank_In in Hz. destruct Hz as [-> | Hz]; [exact E | auto].
Qed.

Lemma sort_by_priority_sorted (l : list Detected) :
  StronglySorted rank_le (sort_by_priority l).
Proof.
  induction l as [| x l IH] using rev_ind; [constructor|].
  rewrite sort_by_priority_snoc. apply insert_by_rank_sorted. exact IH.
Qed.

Lemma filter_none {A : Type} (f : A -> bool) (l : list A) :
  (forall z, In z l -> f z = false) -> filter f l = [].
Proof.
  induction l as [| a l IH]; intro H; simpl; [reflexivity|].
  rewrite (H a (or_introl eq_refl)). apply IH. intros z Hz. apply H. right. exact Hz.
Qed.

Lemma insert_by_rank_filter (r : nat) (x : Detected) (l : list Detected) :
  StronglySorted rank_le l ->
  filter (has_rank r) (insert_by_rank x l)
  = filter (has_rank r) l ++ (if has_rank r x then [x] else []).
Proof.
  induction l as [| y l IH]; intro Hs; simpl.
  - destruct (has_rank r x); reflexivity.
  - inversion Hs as [| ? ? Hl Hy]; subst.
    destruct (Nat.ltb (priority_rank x) (priority_rank y)) eqn:E.
    + apply Nat.ltb_lt in E. cbn [filter].
      destruct (has_rank r x) eqn:Ex; [|rewrite app_nil_r; reflexivity].
      unfold has_rank in Ex. apply Nat.eqb_eq in Ex.
      assert (Hnone : filter (has_rank r) (y :: l) = []).
      { apply filter_none. intros z Hz. unfold has_rank. apply Nat.eqb_neq.
        destruct Hz as [<- | Hz]; [lia|].
        rewrite Forall_forall in Hy. specialize (Hy z Hz). unfold rank_le in Hy. lia. }
      cbn [filter] in Hnone. rewrite Hnone. reflexivity.
    + cbn [filter]. rewrite (IH Hl).
      destruct (has_rank r y); reflexivity.
Qed.

Lemma sort_by_priority_filter (r : nat) (l : list Detected) :
  filter (has_rank r) (sort_by_priority l) = filter (has_rank r) l.
Proof.
  induction l as [| x l IH] using rev_ind; [reflexivity|].
  rewrite sort_by_priority_snoc,
    (insert_by_rank_filter r x _ (sort_by_priority_sorted l)), IH, filter_app.
  reflexivity.
Qed.

Lemma fired_not_fallback (biomarkers : dict Q) (x : Detected) :
  In x (fired_list biomarkers) -> x <> EVERYTHING_FINE /\ x <> HEALTH_MONITORING.
Proof.
  unfold fired_list. rewrite in_map_iff. intros (r & <- & Hr).
  apply filter_In in Hr. destruct Hr as [Hr _].
  apply in_map_iff in Hr. destruct Hr as ([k r'] & E & Hin). simpl in E. subst r'.
  pose proof rules_are_checked as Hchk. unfold rules_checked in Hchk.
  rewrite !andb_true_iff in Hchk. destruct Hchk as [_ Hprio].
  rewrite forallb_forall in Hprio. specialize (Hprio _ Hin). cbn [snd] in Hprio.
  rewrite andb_true_iff, !negb_true_iff, !String.eqb_neq in Hprio.
  destruct Hprio as [H1 H2]. unfold detected_of.
  split; intro E; injection E as _ E _; congruence.
Qed.

Lemma fired_list_nil_iff (biomarkers : dict Q) :
  fired_list biomarkers = [] <->
  forall (k : string) (rule : DiseaseRule),
    In (k, rule) DISEASE_RULES -> rule_fires rule biomarkers = Ok false.
Proof.
  pose proof rules_are_checked as Hchk. unfold rules_checked in Hchk.
  rewrite !andb_true_iff in Hchk. destruct Hchk as [[Hwf _] _].
  rewrite forallb_forall in Hwf.
  unfold fired_list. split.
  - intros Hnil k rule Hin.
    destruct (rule_fires_total rule biomarkers (Hwf _ Hin)) as (-> & _).
    destruct (fires biomarkers rule) eqn:Ef; [|reflexivity].
    exfalso.
    assert (Hx : In (detected_of rule)
                   (map detected_of (filter (fires biomarkers) (map snd DISEASE_RULES)))).
    { apply in_map, filter_In. split; [|assumption].
      apply (in_map snd _ _ Hin). }
    rewrite Hnil in Hx. destruct Hx.
  - intro H.
    rewrite (filter_none (fires biomarkers) (map snd DISEASE_RULES)); [reflexivity|].
    intros rule Hr. apply in_map_iff in Hr. destruct Hr as ([k r'] & E & Hin).
    simpl in E. subst r'. specialize (H _ _ Hin).
    destruct (rule_fires_total rule biomarkers (Hwf _ Hin)) as (E & _).
    congruence.
Qed.

(** X5: for every map the rule evaluator raises nothing and returns a
    list that is not empty and is ordered by priority rank: no entry comes
    before an entry of a smaller rank. *)
Theorem detect_diseases_sorted (biomarkers : dict Q) :
  exists l : list Detected,
    detect_diseases biomarkers = Ok l /\
    l <> [] /\
    StronglySorted rank_le l.
Proof.
  rewrite detect_diseases_eq. eexists. split; [reflexivity|]. split.
  - intro Hnil.
    match type of Hnil with sort_by_priority ?l = [] =>
      pose proof (sort_by_priority_perm l) as Hp; rewrite Hnil in Hp;
      apply Permutation_nil in Hp
    end.
    destruct (fired_list biomarkers); [destruct (all_optimal biomarkers)|];
      discriminate.
  - apply sort_by_priority_sorted.
Qed.

(** X6: when some rule fires, the result holds the entries of the firing
    rules and nothing else, and the entries of one priority rank stand in
    the order of the rules in the table. *)
Theorem detect_diseases_table_order (biomarkers : dict Q) (l : list Detected)
  (r : nat) :
  detect_diseases biomarkers = Ok l ->
  fired_list biomarkers <> [] ->
  Permutation l (fired_list biomarkers) /\
  filter (has_rank r) l = filter (has_rank r) (fired_list biomarkers).
Proof.
  rewrite detect_diseases_eq. intros [= <-] Hne.
  destruct (fired_list biomarkers) as [| d ds]; [congruence|].
  split; [apply sort_by_priority_perm | apply sort_by_priority_filter].
Qed.

Lemma detect_diseases_table_order_witness :
  Permutation
    [ mkDetected "Vitamin B12 Deficiency" "High Risk"
        "B12 deficiency can cause serious neurological damage and pernicious anemia.";
      mkDetected "Prediabetes" "Medium Risk"
        "Blood sugar levels are higher than normal but not yet diabetic." ]
    (fired_list [("vitamin_b12", 150); ("glucose", 105)]) /\
  filter (has_rank 1)
    [ mkDetected "Vitamin B12 Deficiency" "High Risk"
        "B12 deficiency can cause serious neurological damage and pernicious anemia.";
      mkDetected "Prediabetes" "Medium Risk"
        "Blood sugar levels are higher than normal but not yet diabetic." ]
  = filter (has_rank 1) (fired_list [("vitamin_b12", 150); ("glucose", 105)]).
Proof.
  apply (detect_diseases_table_order [("vitamin_b12", 150); ("glucose", 105)]).
  - vm_compute. reflexivity.
  - vm_compute. discriminate.
Defined.

(** X7: the two fallback entries stand alone and only when no rule
    fires: "Everything Fine" is the result exactly when no rule fires and
    every known reading is optimal, "Health Monitoring Recommended"
    exactly when no rule fires and some known reading is not optimal, and
    neither is in the result when a rule fires. *)
Theorem fallback_iff_no_rule_fires (biomarkers : dict Q) (l : list Detected) :
  detect_diseases biomarkers = Ok l ->
  let no_rule_fires :=
    forall (k : string) (rule : DiseaseRule),
      In (k, rule) DISEASE_RULES -> rule_fires rule biomarkers = Ok false in
  (l = [EVERYTHING_FINE] <-> no_rule_fires /\ all_optimal biomarkers = true) /\
  (l = [HEALTH_MONITORING] <-> no_rule_fires /\ all_optimal biomarkers = false) /\
  (~ no_rule_fires -> ~ In EVERYTHING_FINE l /\ ~ In HEALTH_MONITORING l).
Proof.
  rewrite detect_diseases_eq. intros [= <-]. cbv zeta.
  rewrite <- fired_list_nil_iff.
  destruct (fired_list biomarkers) as [| d ds] eqn:Ef.
  - destruct (all_optimal biomarkers); cbn;
      (split; [|split]); try (split; [intros [= ] | intros [_ [= ]]]);
      try tauto; try (split; intros; try discriminate; auto).
  - pose proof (sort_by_priority_perm (d :: ds)) as Hp.
    assert (Hnf : forall x, In x (sort_by_priority (d :: ds)) ->
                            x <> EVERYTHING_FINE /\ x <> HEALTH_MONITORING).
    { intros x Hx. apply (fired_not_fallback biomarkers). rewrite Ef.
      apply (Permutation_in _ Hp). exact Hx. }
    split; [|split].
    + split; [|intros [[= ] _]]. intro E. exfalso.
      destruct (Hnf EVERYTHING_FINE) as [H _]; [rewrite E; left; reflexivity | auto].
    + split; [|intros [[= ] _]]. intro E. exfalso.
      destruct (Hnf HEALTH_MONITORING) as [_ H]; [rewrite E; left; reflexivity | auto].
    + intros _. split; intro Hin; destruct (Hnf _ Hin); auto.
Qed.

Lemma fallback_iff_no_rule_fires_witness :
  let no_rule_fires :=
    forall (k : string) (rule : DiseaseRule),
      In (k, rule) DISEASE_RULES -> rule_fires rule [("glucose", 85)] = Ok false in
  ([EVERYTHING_FINE] = [EVERYTHING_FINE] <->
   no_rule_fires /\ all_optimal [("glucose", 85)] = true) /\
  ([EVERYTHING_FINE] = [HEALTH_MONITORING] <->
   no_rule_fires /\ all_optimal [("glucose", 85)] = false) /\
  (~ no_rule_fires ->
   ~ In EVERYTHING_FINE [EVERYTHING_FINE] /\ ~ In HEALTH_MONITORING [EVERYTHING_FINE]).
Proof.
  apply (fallback_iff_no_rule_fires [("glucose", 85)] [EVERYTHING_FINE]).
  vm_compute. reflexivity.
Defined.

Lemma dict_get_Some_keys {V : Type} (d : dict V) (k : string) (v : V) :
  dict_get d k = Some v -> In k (dict_keys d).
Proof.
  intro H. apply dict_get_In in H. unfold dict_keys.
  apply (in_map fst _ _ H).
Qed.

Lemma fires_false_of_absent (biomarkers : dict Q) (rule : DiseaseRule) :
  forallb well_formed_b (conditions rule) = true ->
  conditions rule <> [] ->
  (forall c, In c (conditions rule) -> dict_get biomarkers (biomarker c) = None) ->
  fires biomarkers rule = false.
Proof.
  intros Hwf Hne Habs. unfold fires, rule_fires.
  rewrite (mapM_evaluate _ biomarkers Hwf). unfold bind.
  rewrite forallb_id_map, existsb_id_map.
  assert (Hh : forall c, In c (conditions rule) -> holds biomarkers c = false).
  { intros c Hc. unfold holds. rewrite (evaluate_absent c biomarkers (Habs c Hc)).
    reflexivity. }
  destruct (conditions rule) as [| c cs]; [congruence|].
  assert (Hall : forallb (holds biomarkers) (c :: cs) = false).
  { cbn [forallb]. rewrite (Hh c (or_introl eq_refl)). reflexivity. }
  assert (Hex : existsb (holds biomarkers) (c :: cs) = false).
  { apply not_true_is_false. intro E. apply existsb_exists in E.
    destruct E as (x & Hx & E). rewrite (Hh x Hx) in E. discriminate. }
  rewrite Hall, Hex.
  destruct (String.eqb (logic rule) "AND"); [reflexivity|].
  destruct (String.eqb (logic rule) "OR"); reflexivity.
Qed.

(** X8: a map whose keys are all outside the registry, the empty map
    among them, fires no rule and counts as optimal: the result is the
    single entry "Everything Fine". *)
Theorem unknown_readings_are_fine (biomarkers : dict Q) :
  (forall k, In k (dict_keys biomarkers) -> dict_get BIOMARKER_RULES k = None) ->
  detect_diseases biomarkers = Ok [EVERYTHING_FINE].
Proof.
  intro Hunk. rewrite detect_diseases_eq.
  assert (Hfired : fired_list biomarkers = []).
  { unfold fired_list.
    rewrite (filter_none (fires biomarkers) (map snd DISEASE_RULES)); [reflexivity|].
    intros rule Hr. apply in_map_iff in Hr. destruct Hr as ([k r'] & E & Hin).
    simpl in E. subst r'.
    pose proof rules_are_checked as Hchk. unfold rules_checked in Hchk.
    rewrite !andb_true_iff in Hchk. destruct Hchk as [[Hwf _] _].
    rewrite forallb_forall in Hwf. specialize (Hwf _ Hin). cbn [snd] in Hwf.
    assert (Hbio : biomarkers_checked DISEASE_RULES = true) by (vm_compute; reflexivity).
    unfold biomarkers_checked in Hbio. rewrite forallb_forall in Hbio.
    specialize (Hbio _ Hin). cbn [snd] in Hbio.
    rewrite andb_true_iff, negb_true_iff in Hbio. destruct Hbio as [Hne Hreg].
    apply fires_false_of_absent; [assumption | |].
    - intro E. rewrite E in Hne. discriminate.
    - intros c Hc. rewrite forallb_forall in Hreg. specialize (Hreg c Hc).
      destruct (dict_get biomarkers (biomarker c)) as [v|] eqn:Eg; [|reflexivity].
      apply dict_get_Some_keys in Eg. apply Hunk in Eg.
      unfold dict_mem in Hreg. rewrite Eg in Hreg. discriminate. }
  rewrite Hfired.
  assert (Hopt : all_optimal biomarkers = true).
  { unfold all_optimal. apply forallb_forall. intros [k v] Hin.
    assert (Hk : In k (dict_keys biomarkers)) by (apply (in_map fst _ _ Hin)).
    rewrite (Hunk k Hk). reflexivity. }
  rewrite Hopt. reflexivity.
Qed.

Lemma unknown_readings_are_fine_witness :
  detect_diseases [("ferritin", 12); ("ldl_cholesterol", 190)] = Ok [EVERYTHING_FINE].
Proof.
  apply (unknown_readings_are_fine [("ferritin", 12); ("ldl_cholesterol", 190)]).
  intros k [<- | [<- | []]]; reflexivity.
Defined.

(** ** Sets *)

Lemma set_add_In (s : list string) (x y : string) :
  In y (set_add s x) <-> In y s \/ y = x.
Proof.
  unfold set_add. destruct (set_mem x s) eqn:E.
  - apply set_mem_In in E. split; [tauto | intros [H | ->]; assumption].
  - rewrite in_app_iff. simpl. intuition congruence.
Qed.

Lemma set_update_In (items s : list string) (y : string) :
  In y (set_update s items) <-> In y s \/ In y items.
Proof.
  unfold set_update. revert s.
  induction items as [| x items IH]; intro s; simpl; [tauto|].
  rewrite IH, set_add_In. intuition congruence.
Qed.

Lemma set_add_NoDup (s : list string) (x : string) :
  NoDup s -> NoDup (set_add s x).
Proof.
  intro H. unfold set_add. destruct (set_mem x s) eqn:E; [assumption|].
  apply NoDup_rev in H. rewrite <- (rev_involutive (s ++ [x])).
  apply NoDup_rev. rewrite rev_app_distr. simpl. constructor; [|assumption].
  rewrite <- in_rev. intro Hin. apply set_mem_In in Hin. congruence.
Qed.

Lemma set_update_NoDup (items s : list string) :
  NoDup s -> NoDup (set_update s items).
Proof.
  unfold set_update. revert s.
  induction items as [| x items IH]; intros s H; simpl; [assumption|].
  apply IH, set_add_NoDup, H.
Qed.

Lemma set_update_nil (s : list string) : set_update s [] = s.
Proof. reflexivity. Qed.

(** ** The symptom list *)

Lemma firstn_incl {A : Type} (n : nat) (l : list A) (x : A) :
  In x (firstn n l) -> In x l.
Proof.
  revert n. induction l as [| a l IH]; intros n H.
  - rewrite firstn_nil in H. destruct H.
  - destruct n as [| n]; simpl in H; [destruct H|].
    destruct H as [-> | H]; [left; reflexivity | right; exact (IH n H)].
Qed.

Lemma firstn_NoDup {A : Type} (n : nat) (l : list A) :
  NoDup l -> NoDup (firstn n l).
Proof.
  revert n. induction l as [| a l IH]; intros n H.
  - rewrite firstn_nil. constructor.
  - destruct n as [| n]; simpl; [constructor|].
    inversion H; subst. constructor; [|auto].
    intro Hin. apply firstn_incl in Hin. contradiction.
Qed.

(** The last steps of [get_symptoms], from the set after the fallbacks. *)
Lemma symptom_list_length (s : list string) :
  s <> [] ->
  let l1 := firstn 15 s in
  let l2 := if Nat.ltb (List.length l1) 3 then l1 ++ GENERIC_GUIDANCE else l1 in
  (3 <= List.length (firstn 15 l2) <= 15)%nat.
Proof.
  intro Hne. cbv zeta.
  assert (H1 : (1 <= List.length (firstn 15 s) <= 15)%nat).
  { rewrite length_firstn. destruct s; [congruence|]. simpl List.length. lia. }
  destruct (Nat.ltb (List.length (firstn 15 s)) 3) eqn:E.
  - rewrite length_firstn, length_app.
    change (List.length GENERIC_GUIDANCE) with 3%nat. lia.
  - apply Nat.ltb_ge in E. rewrite length_firstn. lia.
Qed.

Lemma symptoms_length_bounds (detected_diseases : list Detected)
  (biomarkers : dict Q) :
  (3 <= List.length (get_symptoms detected_diseases biomarkers) <= 15)%nat.
Proof.
  unfold get_symptoms.
  destruct (symptom_union detected_diseases biomarkers) as [[s da] ba].
  apply symptom_list_length.
  destruct s as [| x s]; [|cbn; discriminate].
  assert (Hp : set_update [] POSITIVE_HEALTH = POSITIVE_HEALTH)
    by (vm_compute; reflexivity).
  assert (Hm : set_update [] MONITOR_GENERAL = MONITOR_GENERAL)
    by (vm_compute; reflexivity).
  cbn [is_empty andb]. rewrite Hp, Hm.
  destruct (negb da && negb ba); discriminate.
Qed.

(** X9: whatever the detected conditions and the readings, the symptom
    list has at least three and at most fifteen entries. *)
Theorem get_symptoms_length (detected_diseases : list Detected)
  (biomarkers : dict Q) :
  (3 <= List.length (get_symptoms detected_diseases biomarkers) <= 15)%nat.
Proof.
  unfold get_symptoms.
  destruct (symptom_union detected_diseases biomarkers) as [[s da] ba].
  apply symptom_list_length.
  destruct s as [| x s]; [|cbn; discriminate].
  assert (Hp : set_update [] POSITIVE_HEALTH = POSITIVE_HEALTH)
    by (vm_compute; reflexivity).
  assert (Hm : set_update [] MONITOR_GENERAL = MONITOR_GENERAL)
    by (vm_compute; reflexivity).
  cbn [is_empty andb]. rewrite Hp, Hm.
  destruct (negb da && negb ba); discriminate.
Qed.














Lemma symptoms_of_name_pool (rules : dict DiseaseRule) (n : string) (l : list string) :
  symptoms_of_name rules n = Some l ->
  forall x, In x l -> In x (flat_map (fun e => symptoms (snd e)) rules).
Proof.
  induction rules as [| [k r] rules IH]; simpl; [discriminate|].
  destruct (String.eqb (lower (name r)) n).
  - intros [= <-] x Hx. apply in_app_iff. left. exact Hx.
  - intros H x Hx. apply in_app_iff. right. exact (IH H x Hx).
Qed.

Lemma get_list_pool (table : dict (list string)) (key x : string) :
  In x (get_list table key) -> In x (flat_map snd table).
Proof.
  unfold get_list. destruct (dict_get table key) as [l|] eqn:E; [|intros []].
  intro Hx. apply dict_get_In in E. apply in_flat_map.
  exists (key, l). split; assumption.
Qed.

Lemma general_symptoms_pool (k : string) (table : dict (list string)) (key x : string) :
  dict_get general_symptoms k = Some table ->
  In x (get_list table key) -> In x SYMPTOM_POOL.
Proof.
  intros Hk Hx. unfold SYMPTOM_POOL. apply in_app_iff. right.
  apply in_flat_map. exists (k, table). split; [apply dict_get_In; exact Hk|].
  cbn [snd]. exact (get_list_pool table key x Hx).
Qed.

Lemma set_update_ok (s items : list string) (flag flag' : bool) :
  symptoms_ok (s, flag) -> (forall x, In x items -> In x SYMPTOM_POOL) ->
  symptoms_ok (set_update s items, flag').
Proof.
  intros [Hnd Hp] Hitems. split; cbn [fst] in *.
  - apply set_update_NoDup. exact Hnd.
  - intros x Hx. apply set_update_In in Hx. destruct Hx; auto.
Qed.

Lemma disease_step_ok (st : list string * bool) (disease : Detected) :
  symptoms_ok st -> symptoms_ok (disease_step st disease).
Proof.
  intro H. unfold disease_step. destruct st as [s flag].
  destruct (existsb _ _); [exact H|].
  destruct (symptoms_of_name DISEASE_RULES (lower (d_name disease))) as [l|] eqn:E.
  - apply (set_update_ok s l flag true H). intros x Hx.
    unfold SYMPTOM_POOL. apply in_app_iff. left.
    exact (symptoms_of_name_pool _ _ _ E x Hx).
  - exact H.
Qed.

Lemma biomarker_step_ok (st : list string * bool) (kv : string * Q) :
  symptoms_ok st -> symptoms_ok (biomarker_step st kv).
Proof.
  intro H. unfold biomarker_step. destruct st as [s flag]. destruct kv as [k v].
  destruct (dict_get BIOMARKER_RULES k) as [rules|]; [|exact H].
  destruct (dict_get general_symptoms k) as [table|] eqn:Ek; [|exact H].
  repeat match goal with
         | |- symptoms_ok (if ?b then _ else _) => destruct b
         end;
    try exact H;
    apply (set_update_ok s _ flag true H); intros x Hx;
    exact (general_symptoms_pool k table _ x Ek Hx).
Qed.

Lemma fold_left_invariant {A B : Type} (P : A -> Prop) (f : A -> B -> A)
  (l : list B) (a : A) :
  (forall a b, P a -> P (f a b)) -> P a -> P (fold_left f l a).
Proof.
  intro Hf. revert a. induction l as [| b l IH]; intros a Ha; simpl; auto.
Qed.

Lemma symptom_union_ok (detected_diseases : list Detected) (biomarkers : dict Q) :
  symptoms_ok (fst (fst (symptom_union detected_diseases biomarkers)), false).
Proof.
  unfold symptom_union.
  pose proof (fold_left_invariant symptoms_ok disease_step detected_diseases
                ([], false) disease_step_ok) as H1.
  destruct (fold_left disease_step detected_diseases ([], false)) as [s1 da].
  assert (Hs1 : symptoms_ok (s1, false)).
  { destruct H1 as [Hnd Hp]; [split; [constructor | intros x []]|].
    split; assumption. }
  pose proof (fold_left_invariant symptoms_ok biomarker_step biomarkers
                (s1, false) biomarker_step_ok Hs1) as H2.
  destruct (fold_left biomarker_step biomarkers (s1, false)) as [s2 ba].
  exact H2.
Qed.

Lemma NoDup_append {A : Type} (l1 l2 : list A) :
  NoDup l1 -> NoDup l2 -> (forall x, In x l1 -> ~ In x l2) -> NoDup (l1 ++ l2).
Proof.
  induction l1 as [| a l1 IH]; intros H1 H2 Hd; simpl; [assumption|].
  inversion H1; subst. constructor.
  - rewrite in_app_iff. intros [H | H]; [contradiction|].
    exact (Hd a (or_introl eq_refl) H).
  - apply IH; auto. intros x Hx. apply Hd. right. exact Hx.
Qed.

(** X12: the symptom list never holds a text twice, also when the
    guidance texts are appended to a short list. *)
Theorem get_symptoms_no_duplicate (detected_diseases : list Detected)
  (biomarkers : dict Q) :
  NoDup (get_symptoms detected_diseases biomarkers).
Proof.
  pose proof (symptom_union_ok detected_diseases biomarkers) as [Hnd Hpool].
  unfold get_symptoms.
  destruct (symptom_union detected_diseases biomarkers) as [[s da] ba].
  cbn [fst] in Hnd, Hpool.
  destruct s as [| x s].
  - assert (Hp : set_update [] POSITIVE_HEALTH = POSITIVE_HEALTH)
      by (vm_compute; reflexivity).
    assert (Hm : set_update [] MONITOR_GENERAL = MONITOR_GENERAL)
      by (vm_compute; reflexivity).
    cbn [is_empty andb]. rewrite Hp, Hm.
    destruct (negb da && negb ba); apply distinct_NoDup; vm_compute; reflexivity.
  - cbn [is_empty andb].
    apply firstn_NoDup.
    destruct (Nat.ltb (List.length (firstn 15 (x :: s))) 3);
      [|apply firstn_NoDup; exact Hnd].
    apply NoDup_append.
    + apply firstn_NoDup. exact Hnd.
    + apply distinct_NoDup. vm_compute. reflexivity.
    + intros y Hy Hg. apply firstn_incl in Hy. apply Hpool in Hy.
      assert (Hdisj : forallb (fun g => negb (set_mem g SYMPTOM_POOL))
                        GENERIC_GUIDANCE = true) by (vm_compute; reflexivity).
      rewrite forallb_forall in Hdisj. specialize (Hdisj y Hg).
      apply negb_true_iff in Hdisj. apply set_mem_In in Hy. congruence.
Qed.

(** ** The recommendations *)

Lemma dict_mem_keys {V : Type} (d : dict V) (k : string) :
  dict_mem d k = true <-> In k (dict_keys d).
Proof.
  unfold dict_mem. destruct (dict_get d k) eqn:E.
  - split; [intros _; exact (dict_get_Some_keys d k v E) | reflexivity].
  - split; [discriminate|]. intro H. apply dict_get_None_keys in E. contradiction.
Qed.

Lemma update_category_ok (recommendations : dict (list string)) (category : string)
  (items : list string) :
  buckets_ok recommendations -> In category BUCKETS ->
  exists recommendations',
    update_category recommendations category items = Ok recommendations' /\
    buckets_ok recommendations' /\
    included recommendations recommendations' /\
    (forall x, In x items ->
               exists s', dict_get recommendations' category = Some s' /\ In x s').
Proof.
  intros [Hkeys Hnd] Hc. unfold update_category.
  destruct (dict_get recommendations category) as [s|] eqn:E.
  - eexists. split; [reflexivity|]. split; [|split].
    + split.
      * rewrite dict_set_keys.
        rewrite (proj2 (dict_mem_keys recommendations category))
          by (rewrite Hkeys; exact Hc).
        exact Hkeys.
      * apply dict_set_Forall; [|exact Hnd]. intros k' _. cbn [snd].
        apply set_update_NoDup. apply dict_get_In in E.
        rewrite Forall_forall in Hnd. exact (Hnd _ E).
    + intros c s0 x Hget Hx. destruct (String.eqb category c) eqn:Ec.
      * apply String.eqb_eq in Ec. subst c. rewrite dict_get_set_same.
        eexists. split; [reflexivity|]. apply set_update_In. left. congruence.
      * apply String.eqb_neq in Ec. rewrite dict_get_set_other by exact Ec.
        exists s0. auto.
    + intros x Hx. rewrite dict_get_set_same. eexists. split; [reflexivity|].
      apply set_update_In. right. exact Hx.
  - exfalso. apply dict_get_None_keys in E. rewrite Hkeys in E. contradiction.
Qed.

Lemma included_refl (r : dict (list string)) : included r r.
Proof. intros c s x H Hx. exists s. auto. Qed.

Lemma included_trans (r1 r2 r3 : dict (list string)) :
  included r1 r2 -> included r2 r3 -> included r1 r3.
Proof.
  intros H12 H23 c s x H Hx.
  destruct (H12 c s x H Hx) as (s' & H' & Hx'). exact (H23 c s' x H' Hx').
Qed.

Lemma add_template_ok (cut : list string -> list string)
  (template : dict (list string)) (recommendations : dict (list string)) :
  buckets_ok recommendations ->
  forallb (fun e => set_mem (fst e) BUCKETS) template = true ->
  exists recommendations',
    add_template cut template recommendations = Ok recommendations' /\
    buckets_ok recommendations' /\
    included recommendations recommendations' /\
    (forall category items x,
       In (category, items) template -> In x (cut items) ->
       exists s', dict_get recommendations' category = Some s' /\ In x s').
Proof.
  revert recommendations.
  induction template as [| [category items] template IH]; intros r Hok Hchk.
  - exists r. split; [reflexivity|]. split; [exact Hok|].
    split; [apply included_refl | intros ? ? ? []].
  - cbn [forallb fst] in Hchk. apply andb_true_iff in Hchk.
    destruct Hchk as [Hc Hrest]. apply set_mem_In in Hc.
    destruct (update_category_ok r category (cut items) Hok Hc)
      as (r1 & E1 & Hok1 & Hinc1 & Hitems1).
    destruct (IH r1 Hok1 Hrest) as (r2 & E2 & Hok2 & Hinc2 & Hitems2).
    exists r2. cbn [add_template]. rewrite E1. unfold bind.
    split; [exact E2|]. split; [exact Hok2|].
    split; [exact (included_trans _ _ _ Hinc1 Hinc2)|].
    intros c its x [E | Hin] Hx.
    + injection E as <- <-. destruct (Hitems1 x Hx) as (s1 & Hs1 & Hx1).
      exact (Hinc2 _ _ _ Hs1 Hx1).
    + exact (Hitems2 c its x Hin Hx).
Qed.

Lemma templates_are_checked (key : string) (template : dict (list string)) :
  dict_get RECOMMENDATION_TEMPLATES key = Some template ->
  forallb (fun e => set_mem (fst e) BUCKETS) template = true.
Proof.
  intro Hk. apply dict_get_In in Hk.
  assert (Hchk : templates_checked RECOMMENDATION_TEMPLATES = true)
    by (vm_compute; reflexivity).
  unfold templates_checked in Hchk. rewrite forallb_forall in Hchk.
  exact (Hchk _ Hk).
Qed.

Lemma add_disease_templates_ok (detected_diseases : list Detected)
  (recommendations : dict (list string)) :
  buckets_ok recommendations ->
  exists recommendations',
    add_disease_templates detected_diseases recommendations = Ok recommendations' /\
    buckets_ok recommendations' /\
    included recommendations recommendations' /\
    (forall disease key template category items x,
       In disease detected_diseases ->
       template_key_of (lower (d_name disease)) = Some key ->
       dict_get RECOMMENDATION_TEMPLATES key = Some template ->
       In (category, items) template -> In x items ->
       exists s', dict_get recommendations' category = Some s' /\ In x s').
Proof.
  revert recommendations.
  induction detected_diseases as [| d ds IH]; intros r Hok.
  - exists r. split; [reflexivity|]. split; [exact Hok|].
    split; [apply included_refl | intros ? ? ? ? ? ? []].
  - cbn [add_disease_templates].
    assert (Hstep :
      exists r1,
        match template_key_of (lower (d_name d)) with
        | Some template_key =>
            match dict_get RECOMMENDATION_TEMPLATES template_key with
            | Some template => add_template (fun items => items) template r
            | None => Ok r
            end
        | None => Ok r
        end = Ok r1 /\
        buckets_ok r1 /\ included r r1 /\
        (forall key template category items x,
           template_key_of (lower (d_name d)) = Some key ->
           dict_get RECOMMENDATION_TEMPLATES key = Some template ->
           In (category, items) template -> In x items ->
           exists s', dict_get r1 category = Some s' /\ In x s')).
    { destruct (template_key_of (lower (d_name d))) as [key|].
      - destruct (dict_get RECOMMENDATION_TEMPLATES key) as [template|] eqn:Et.
        + destruct (add_template_ok (fun items => items) template r Hok
                      (templates_are_checked key template Et))
            as (r1 & E1 & Hok1 & Hinc1 & Hit1).
          exists r1. repeat split; try assumption; try apply Hok1.
          intros key' template' c its x [= <-] Ht' Hin Hx.
          assert (template' = template) by congruence. subst template'.
          exact (Hit1 c its x Hin Hx).
        + exists r. repeat split; try apply Hok; [apply included_refl|].
          intros key' template' c its x [= <-] Ht'. congruence.
      - exists r. repeat split; try apply Hok; [apply included_refl|].
        intros key' template' c its x [=]. }
    destruct Hstep as (r1 & E1 & Hok1 & Hinc1 & Hit1). rewrite E1. unfold bind.
    destruct (IH r1 Hok1) as (r2 & E2 & Hok2 & Hinc2 & Hit2).
    exists r2. split; [exact E2|]. split; [exact Hok2|].
    split; [exact (included_trans _ _ _ Hinc1 Hinc2)|].
    intros disease key template c its x [<- | Hin] Hkey Ht Hc Hx.
    + destruct (Hit1 key template c its x Hkey Ht Hc Hx) as (s1 & Hs1 & Hx1).
      exact (Hinc2 _ _ _ Hs1 Hx1).
    + exact (Hit2 disease key template c its x Hin Hkey Ht Hc Hx).
Qed.

Lemma generate_recommendations_ok (detected_diseases : list Detected)
  (biomarkers : dict Q) :
  exists recommendations,
    generate_recommendations detected_diseases biomarkers = Ok recommendations /\
    buckets_ok recommendations /\
    (forall disease key template category items x,
       In disease detected_diseases ->
       template_key_of (lower (d_name disease)) = Some key ->
       dict_get RECOMMENDATION_TEMPLATES key = Some template ->
       In (category, items) template -> In x items ->
       exists s', dict_get recommendations category = Some s' /\ In x s').
Proof.
  unfold generate_recommendations.
  assert (H0 : buckets_ok [ ("Professional Consultation", []); ("Dietary", []);
                            ("Lifestyle", []) ]).
  { split; [reflexivity|]. repeat constructor. }
  destruct (add_disease_templates_ok detected_diseases _ H0)
    as (r1 & E1 & Hok1 & _ & Hit1).
  rewrite E1. unfold bind.
  destruct detected_diseases as [| d ds]; cbn [is_empty].
  - destruct (dict_get RECOMMENDATION_TEMPLATES "general_wellness")
      as [general_template|] eqn:Eg; [|vm_compute in Eg; discriminate].
    destruct (add_template_ok (firstn 2) general_template r1 Hok1
                (templates_are_checked _ _ Eg)) as (r2 & E2 & Hok2 & _ & _).
    exists r2. split; [exact E2|]. split; [exact Hok2|].
    intros ? ? ? ? ? ? [].
  - exists r1. split; [reflexivity|]. split; [exact Hok1 | exact Hit1].
Qed.

(** X13: the recommendation generator raises nothing; its result has the
    three buckets "Professional Consultation", "Dietary" and "Lifestyle",
    in this order, and no bucket holds an item twice. *)
Theorem recommendations_three_buckets (detected_diseases : list Detected)
  (biomarkers : dict Q) :
  exists recommendations,
    generate_recommendations detected_diseases biomarkers = Ok recommendations /\
    dict_keys recommendations = BUCKETS /\
    forall category items, In (category, items) recommendations -> NoDup items.
Proof.
  destruct (generate_recommendations_ok detected_diseases biomarkers)
    as (r & E & [Hkeys Hnd] & _).
  exists r. split; [exact E|]. split; [exact Hkeys|].
  intros c its Hin. rewrite Forall_forall in Hnd. exact (Hnd _ Hin).
Qed.

(** X14: every item of the template chosen for a detected condition is
    in the bucket of its category in the result. *)
Theorem recommendations_hold_template (detected_diseases : list Detected)
  (biomarkers : dict Q) (recommendations : dict (list string))
  (disease : Detected) (key : string) (template : dict (list string))
  (category : string) (items : list string) (x : string) :
  generate_recommendations detected_diseases biomarkers = Ok recommendations ->
  In disease detected_diseases ->
  template_key_of (lower (d_name disease)) = Some key ->
  dict_get RECOMMENDATION_TEMPLATES key = Some template ->
  In (category, items) template ->
  In x items ->
  exists bucket, dict_get recommendations category = Some bucket /\ In x bucket.
Proof.
  intros E Hd Hkey Ht Hc Hx.
  destruct (generate_recommendations_ok detected_diseases biomarkers)
    as (r & E' & _ & Hit).
  assert (r = recommendations) by congruence. subst r.
  exact (Hit disease key template category items x Hd Hkey Ht Hc Hx).
Qed.

Lemma recommendations_hold_template_witness :
  exists recommendations bucket,
    generate_recommendations
      [mkDetected "Type 2 Diabetes" "High Risk"
         "Elevated glucose and/or HbA1c levels indicate diabetes."] []
    = Ok recommendations /\
    dict_get recommendations "Dietary" = Some bucket /\
    In "Increase fiber intake" bucket.
Proof.
  let o := eval vm_compute in
    (generate_recommendations
       [mkDetected "Type 2 Diabetes" "High Risk"
          "Elevated glucose and/or HbA1c levels indicate diabetes."] []) in
  let t := eval vm_compute in
    (dict_get RECOMMENDATION_TEMPLATES "diabetes_type_2") in
  match o with
  | Ok ?r =>
      match t with
      | Some ?tpl =>
          destruct (recommendations_hold_template
                      [mkDetected "Type 2 Diabetes" "High Risk"
                         "Elevated glucose and/or HbA1c levels indicate diabetes."] []
                      r
                      (mkDetected "Type 2 Diabetes" "High Risk"
                         "Elevated glucose and/or HbA1c levels indicate diabetes.")
                      "diabetes_type_2" tpl "Dietary"
                      [ "Follow a low-carbohydrate diet";
                        "Monitor portion sizes and meal timing";
                        "Increase fiber intake";
                        "Limit sugar and processed foods" ]
                      "Increase fiber intake") as (bucket & Hb & Hx);
          [ vm_compute; reflexivity
          | left; reflexivity
          | vm_compute; reflexivity
          | vm_compute; reflexivity
          | right; left; reflexivity
          | right; right; left; reflexivity
          | exists r, bucket; split; [vm_compute; reflexivity | split; assumption] ]
      end
  end.
Defined.

(** ** The merged map and the report *)

Lemma sample_ok :
  NoDup (dict_keys SAMPLE_BIOMARKERS) /\ Forall entry_ok SAMPLE_BIOMARKERS.
Proof.
  split; [apply distinct_NoDup; vm_compute; reflexivity|].
  unfold SAMPLE_BIOMARKERS. repeat constructor.
Qed.

Lemma average_all_keys (all_biomarkers : dict readings) (acc final : dict Q) :
  average_all all_biomarkers acc = Ok final ->
  NoDup (dict_keys acc) -> NoDup (dict_keys final).
Proof.
  revert acc. induction all_biomarkers as [| [k r] rest IH]; intros acc E Hnd.
  - cbn in E. injection E as <-. exact Hnd.
  - cbn [average_all] in E. destruct (average r) as [v | e]; [|discriminate].
    unfold bind in E. apply (IH _ E). apply dict_set_NoDup. exact Hnd.
Qed.

Lemma observed_nil_of_merge_nil (files : list (dict Q)) (key : string) :
  merge_files files = [] -> observed key files = [].
Proof. intro H. rewrite <- merge_files_values, H. reflexivity. Qed.

(** The map the averages are taken of: the merge, or the sample. *)
Lemma merged_biomarkers_lookup (files : list (dict Q)) :
  exists final : dict Q,
    merged_biomarkers files = Ok final /\
    NoDup (dict_keys final) /\
    final <> [] /\
    (merge_files files <> [] ->
     forall key,
       dict_get final key = option_map average_of (dict_get (merge_files files) key)).
Proof.
  unfold merged_biomarkers.
  destruct (merge_files_ok files) as [Hnd Hok].
  destruct (merge_files files) as [| e rest] eqn:Em; cbn [is_empty].
  - destruct sample_ok as [Hnds Hoks].
    destruct (average_all_lookup SAMPLE_BIOMARKERS [] Hnds Hoks) as (final & E & Hget).
    exists final. split; [exact E|].
    split; [apply (average_all_keys _ _ _ E); constructor|].
    split; [|congruence].
    intro Hnil. specialize (Hget "glucose"). rewrite Hnil in Hget.
    vm_compute in Hget. discriminate.
  - destruct (average_all_lookup (e :: rest) [] Hnd Hok) as (final & E & Hget).
    exists final. split; [exact E|].
    split; [apply (average_all_keys _ _ _ E); constructor|].
    split.
    + intro Hnil. specialize (Hget (fst e)). rewrite Hnil in Hget.
      destruct e as [k r]. cbn in Hget. rewrite String.eqb_refl in Hget. discriminate.
    + intros _ key. rewrite Hget.
      destruct (dict_get (e :: rest) key); reflexivity.
Qed.

(** X15: the merge raises nothing and gives a map with one entry per
    key that is never empty; when some file holds a reading, the keys of
    the map are exactly the keys observed in a file. *)
Theorem merged_keys_are_observed (files : list (dict Q)) :
  exists final : dict Q,
    merged_biomarkers files = Ok final /\
    NoDup (dict_keys final) /\
    final <> [] /\
    ((exists key, observed key files <> []) ->
     forall key, In key (dict_keys final) <-> observed key files <> []).
Proof.
  destruct (merged_biomarkers_lookup files) as (final & E & Hnd & Hne & Hget).
  exists final. split; [exact E|]. split; [exact Hnd|]. split; [exact Hne|].
  intros (key0 & Hobs) key.
  assert (Hm : merge_files files <> []).
  { intro Hnil. apply Hobs. apply observed_nil_of_merge_nil. exact Hnil. }
  specialize (Hget Hm key).
  destruct (merge_files_ok files) as [_ Hok].
  pose proof (merge_files_values files key) as Hval.
  destruct (dict_get (merge_files files) key) as [r|] eqn:Er; cbn in Hget.
  - split.
    + intros _ Hnil. rewrite Hnil in Hval.
      apply dict_get_In in Er. rewrite Forall_forall in Hok. specialize (Hok _ Er).
      unfold entry_ok in Hok. destruct r as [v | l]; cbn in *; [discriminate|].
      subst l. cbn in Hok. lia.
    + intros _. exact (dict_get_Some_keys _ _ _ Hget).
  - split.
    + intro Hin. apply dict_get_None_keys in Hget. contradiction.
    + intro Hobs'. cbn in Hval. congruence.
Qed.


(** X17: the analysis of a batch raises nothing, whatever the files
    hold, also when they hold nothing: the report has a classified
    biomarker for each entry of the merged map and at least one, at least
    one condition, between three and fifteen symptoms, the three buckets
    of recommendations and the number of the files. *)
Theorem analysis_never_raises (files : list (dict Q)) :
  exists (final : dict Q) (r : Report),
    merged_biomarkers files = Ok final /\
    analyze_files files = Ok r /\
    map a_value (r_biomarkers r) = map snd final /\
    r_biomarkers r <> [] /\
    r_potential_diseases r <> [] /\
    (3 <= List.length (r_symptoms r) <= 15)%nat /\
    dict_keys (r_recommendations r) = BUCKETS /\
    r_files_processed r = List.length files.
Proof.
  destruct (merged_biomarkers_lookup files) as (final & E & _ & Hne & _).
  unfold analyze_files. rewrite E. unfold bind at 1.
  rewrite detect_diseases_eq. unfold bind at 1.
  match goal with
  | |- context [generate_recommendations ?d ?b] =>
      destruct (generate_recommendations_ok d b) as (recs & Er & [Hkeys _] & _);
      rewrite Er; set (detected := d)
  end.
  unfold bind. exists final. eexists. split; [reflexivity|]. split; [reflexivity|].
  cbn [r_biomarkers r_potential_diseases r_symptoms r_recommendations
       r_files_processed].
  split; [|split; [|split; [|split; [|split]]]].
  - rewrite map_map. apply map_ext. intros [k v].
    exact (proj2 (unknown_value_kept k v)).
  - destruct final; [congruence | discriminate].
  - intro Hnil. subst detected.
    match type of Hnil with sort_by_priority ?l = [] =>
      pose proof (sort_by_priority_perm l) as Hp; rewrite Hnil in Hp;
      apply Permutation_nil in Hp
    end.
    destruct (fired_list final); [destruct (all_optimal final)|]; discriminate.
  - apply symptoms_length_bounds.
  - exact Hkeys.
  - reflexivity.
Qed.

(** ** The keys the matcher fills *)

Lemma scan_candidates_cases (key : string) (info : BiomarkerRule)
  (cands : list candidate) (acc : dict Q) :
  (claimed cands (key, info) = false /\ scan_candidates key info cands acc = acc) \/
  (claimed cands (key, info) = true /\
   exists v, scan_candidates key info cands acc = dict_set acc key v).
Proof.
  unfold claimed. cbn [snd].
  induction cands as [| [[ctx v] u] cands IH]; [left; split; reflexivity|].
  cbn [existsb scan_candidates context_of fst].
  destruct (scan_keywords (keywords info) (context_variations ctx)).
  - right. split; [reflexivity | exists v; reflexivity].
  - exact IH.
Qed.

Lemma match_registry_keys (rules : dict BiomarkerRule) (cands : list candidate)
  (acc : dict Q) :
  NoDup (dict_keys acc ++ dict_keys rules) ->
  dict_keys (match_registry rules cands acc)
  = dict_keys acc ++ map fst (filter (claimed cands) rules).
Proof.
  unfold match_registry. revert acc.
  induction rules as [| [k info] rules IH]; intros acc Hnd.
  - cbn. rewrite app_nil_r. reflexivity.
  - cbn [fold_left fst snd filter].
    assert (Hk : ~ In k (dict_keys acc)).
    { intro Hin. apply NoDup_remove_2 in Hnd. apply Hnd.
      apply in_app_iff. left. exact Hin. }
    assert (Hmem : dict_mem acc k = false).
    { destruct (dict_mem acc k) eqn:E; [|reflexivity].
      exfalso. apply Hk, dict_mem_keys, E. }
    destruct (scan_candidates_cases k info cands acc) as [[Hc ->] | [Hc (v & ->)]];
      rewrite Hc.
    + apply IH. cbn [dict_keys map fst] in Hnd.
      apply NoDup_remove_1 in Hnd. exact Hnd.
    + rewrite IH.
      * rewrite dict_set_keys, Hmem, <- app_assoc. reflexivity.
      * rewrite dict_set_keys, Hmem, <- app_assoc. exact Hnd.
Qed.

(** X18: the keys of the map the matcher returns are the registry keys
    for which some candidate passes the test, each once, in the order of
    the registry. *)
Theorem matcher_keys_in_registry_order (extracted_numbers : list candidate) :
  dict_keys (match_candidates extracted_numbers)
  = map fst (filter (claimed extracted_numbers) BIOMARKER_RULES).
Proof.
  unfold match_candidates.
  rewrite match_registry_keys; [reflexivity|].
  exact registry_keys_distinct.
Qed.

Lemma scan_candidates_claims (key : string) (info : BiomarkerRule)
  (cands : list candidate) (acc : dict Q) (c : candidate) :
  In c cands -> satisfying info (context_of c) ->
  exists v, scan_candidates key info cands acc = dict_set acc key v.
Proof.
  intros Hin Hsat.
  destruct (scan_candidates_cases key info cands acc) as [[Hc _] | [_ H]];
    [|exact H].
  exfalso. unfold claimed in Hc. cbn [snd] in Hc.
  assert (Ht : existsb
                 (fun c0 => scan_keywords (keywords info)
                              (context_variations (context_of c0))) cands = true).
  { apply existsb_exists. exists c. split; [exact Hin|].
    apply scan_keywords_satisfying. exact Hsat. }
  congruence.
Qed.

(** X19: the test is permissive in both directions: when the label of
    some candidate, taken without case, holds an alias of a registry entry
    or is itself a fragment of the alias, the key of the entry gets a
    value. *)
Theorem fragment_labels_match (extracted_numbers : list candidate)
  (biomarker_key : string) (biomarker_info : BiomarkerRule)
  (keyword : string) (c : candidate) :
  dict_get BIOMARKER_RULES biomarker_key = Some biomarker_info ->
  In keyword (keywords biomarker_info) ->
  In c extracted_numbers ->
  contains (lower keyword) (lower (context_of c)) = true \/
  contains (lower (context_of c)) (lower keyword) = true ->
  exists v, dict_get (match_candidates extracted_numbers) biomarker_key = Some v.
Proof.
  intros Hk Hkw Hin Hfrag.
  destruct (dict_get_split _ _ _ Hk) as (earlier & later & Hsplit & _).
  destruct (match_registry_at earlier later biomarker_key biomarker_info
              extracted_numbers Hsplit) as (_ & _ & Hfinal).
  assert (Hsat : satisfying biomarker_info (context_of c)).
  { exists keyword, (context_of c). split; [exact Hkw|].
    split; [left; reflexivity|].
    unfold keyword_matches. destruct Hfrag as [-> | ->];
      [reflexivity | rewrite orb_true_r; reflexivity]. }
  destruct (scan_candidates_claims biomarker_key biomarker_info extracted_numbers
              (match_registry earlier extracted_numbers []) c Hin Hsat) as (v & Hv).
  exists v. rewrite Hfinal, Hv. apply dict_get_set_same.
Qed.

Lemma fragment_labels_match_witness :
  exists v,
    dict_get (match_candidates [("chol", 180, "mg")]) "total_cholesterol" = Some v.
Proof.
  let o := eval vm_compute in (dict_get BIOMARKER_RULES "total_cholesterol") in
  match o with
  | Some ?r =>
      apply (fragment_labels_match [("chol", 180, "mg")] "total_cholesterol" r
               "total cholesterol" ("chol", 180, "mg"))
  end.
  - vm_compute. reflexivity.
  - left. reflexivity.
  - left. reflexivity.
  - right. vm_compute. reflexivity.
Defined.

(** ** The names of a tabular source *)

Lemma lower_char_not_upper (c : ascii) : is_upper (lower_char c) = false.
Proof. destruct c as [[] [] [] [] [] [] [] []]; reflexivity. Qed.

Lemma lower_char_fixed (c : ascii) : is_upper c = false -> lower_char c = c.
Proof. intro H. unfold lower_char. rewrite H. reflexivity. Qed.

Lemma lower_no_upper (s : string) :
  string_forall (fun c => negb (is_upper c)) (lower s) = true.
Proof.
  induction s as [| c s IH]; [reflexivity|].
  cbn [lower string_forall]. rewrite lower_char_not_upper, IH. reflexivity.
Qed.

Lemma string_forall_append (p : ascii -> bool) (s1 s2 : string) :
  string_forall p (String.append s1 s2) = string_forall p s1 && string_forall p s2.
Proof.
  induction s1 as [| c s1 IH]; [reflexivity|].
  cbn [String.append string_forall]. rewrite IH, andb_assoc. reflexivity.
Qed.

Lemma replace_forall (p q : ascii -> bool) (old : ascii) (new s : string) :
  string_forall q s = true ->
  (forall c, q c = true -> c <> old -> p c = true) ->
  string_forall p new = true ->
  string_forall p (replace old new s) = true.
Proof.
  intros Hs Hpq Hnew. induction s as [| c s IH]; [reflexivity|].
  cbn [string_forall] in Hs. apply andb_true_iff in Hs. destruct Hs as [Hc Hs].
  cbn [replace]. destruct (Ascii.eqb c old) eqn:E.
  - rewrite string_forall_append, Hnew, (IH Hs). reflexivity.
  - apply Ascii.eqb_neq in E. cbn [string_forall].
    rewrite (Hpq c Hc E), (IH Hs). reflexivity.
Qed.

Lemma clean_name_clean (s : string) : string_forall clean_char (clean_name s) = true.
Proof.
  unfold clean_name.
  apply (replace_forall clean_char
           (fun c => negb (is_upper c) && negb (Ascii.eqb c " "))).
  - apply (replace_forall _ (fun c => negb (is_upper c))).
    + apply lower_no_upper.
    + intros c Hc Hne. rewrite Hc. apply Ascii.eqb_neq in Hne. rewrite Hne.
      reflexivity.
    + reflexivity.
  - intros c Hc Hne. unfold clean_char. rewrite Hc.
    apply Ascii.eqb_neq in Hne. rewrite Hne. reflexivity.
  - reflexivity.
Qed.

Lemma replace_absent (old : ascii) (new s : string) :
  string_forall (fun c => negb (Ascii.eqb c old)) s = true ->
  replace old new s = s.
Proof.
  induction s as [| c s IH]; [reflexivity|].
  cbn [string_forall replace]. rewrite andb_true_iff, negb_true_iff.
  intros [Hc Hs]. rewrite Hc, (IH Hs). reflexivity.
Qed.

Lemma lower_fixed (s : string) :
  string_forall (fun c => negb (is_upper c)) s = true -> lower s = s.
Proof.
  induction s as [| c s IH]; [reflexivity|].
  cbn [string_forall lower]. rewrite andb_true_iff, negb_true_iff.
  intros [Hc Hs]. rewrite (lower_char_fixed c Hc), (IH Hs). reflexivity.
Qed.

Lemma string_forall_weaken (p q : ascii -> bool) (s : string) :
  (forall c, p c = true -> q c = true) ->
  string_forall p s = true -> string_forall q s = true.
Proof.
  intro Hpq. induction s as [| c s IH]; [reflexivity|].
  cbn [string_forall]. rewrite !andb_true_iff. intros [Hc Hs].
  split; [apply Hpq; exact Hc | apply IH; exact Hs].
Qed.

Lemma clean_name_fixed (s : string) :
  string_forall clean_char s = true -> clean_name s = s.
Proof.
  intro H. unfold clean_name.
  rewrite lower_fixed.
  - rewrite (replace_absent " " "_" s).
    + apply replace_absent. revert H. apply string_forall_weaken.
      intro c. unfold clean_char. rewrite !andb_true_iff. tauto.
    + revert H. apply string_forall_weaken.
      intro c. unfold clean_char. rewrite !andb_true_iff. tauto.
  - revert H. apply string_forall_weaken.
    intro c. unfold clean_char. rewrite !andb_true_iff. tauto.
Qed.

Lemma fold_left_ext {A B : Type} (f g : A -> B -> A) (l : list B) (a : A) :
  (forall a b, f a b = g a b) -> fold_left f l a = fold_left g l a.
Proof.
  intro H. revert a. induction l as [| b l IH]; intro a; simpl; [reflexivity|].
  rewrite H. apply IH.
Qed.

(** The loop over the rows sets, row by row, the entry the row gives. *)
Lemma parse_csv_rows_fold (float_of_string : string -> option Q)
  (name_col value_col : nat) (rows : list (list string)) :
  parse_csv_rows float_of_string name_col value_col rows
  = fold_left
      (fun biomarkers row =>
         match row_entry float_of_string name_col value_col row with
         | Some (k, v) => dict_set biomarkers k v
         | None => biomarkers
         end)
      rows [].
Proof.
  unfold parse_csv_rows. apply fold_left_ext. intros acc row.
  unfold row_entry, clean_name.
  destruct (Nat.ltb (Nat.max name_col value_col) (List.length row)); [|reflexivity].
  destruct (nth_error row name_col); [|reflexivity].
  destruct (nth_error row value_col); [|reflexivity].
  destruct (float_of_string (strip s0)); reflexivity.
Qed.

Lemma row_entry_clean (float_of_string : string -> option Q)
  (name_col value_col : nat) (row : list string) (k : string) (v : Q) :
  row_entry float_of_string name_col value_col row = Some (k, v) ->
  string_forall clean_char k = true.
Proof.
  unfold row_entry.
  destruct (Nat.ltb (Nat.max name_col value_col) (List.length row)); [|discriminate].
  destruct (nth_error row name_col); [|discriminate].
  destruct (nth_error row value_col); [|discriminate].
  destruct (float_of_string (strip s0)); [|discriminate].
  intros [= <- _]. apply clean_name_clean.
Qed.

(** X20: every key of the map read from the rows of a file is a cleaned
    name: it has no capital letter, no space and no hyphen, and cleaning
    it again changes nothing. *)
Theorem csv_keys_are_clean (float_of_string : string -> option Q)
  (name_col value_col : nat) (rows : list (list string)) (k : string) :
  In k (dict_keys (parse_csv_rows float_of_string name_col value_col rows)) ->
  string_forall clean_char k = true /\ clean_name k = k.
Proof.
  rewrite parse_csv_rows_fold. intro Hin.
  assert (Hall : Forall (fun key => string_forall clean_char key = true)
                   (dict_keys
                      (fold_left
                         (fun biomarkers row =>
                            match row_entry float_of_string name_col value_col row with
                            | Some (k, v) => dict_set biomarkers k v
                            | None => biomarkers
                            end) rows []))).
  { apply (fold_left_invariant
             (fun d : dict Q =>
                Forall (fun key => string_forall clean_char key = true) (dict_keys d))).
    - intros acc row Hacc.
      destruct (row_entry float_of_string name_col value_col row) as [[k' v']|] eqn:E;
        [|exact Hacc].
      rewrite dict_set_keys. destruct (dict_mem acc k'); [exact Hacc|].
      apply Forall_app. split; [exact Hacc|].
      constructor; [exact (row_entry_clean _ _ _ _ _ _ E) | constructor].
    - constructor. }
  rewrite Forall_forall in Hall. specialize (Hall k Hin).
  split; [exact Hall | apply clean_name_fixed; exact Hall].
Qed.

Lemma csv_keys_are_clean_witness :
  string_forall clean_char "ldl_cholesterol" = true /\
  clean_name "ldl_cholesterol" = "ldl_cholesterol".
Proof.
  apply (csv_keys_are_clean
           (fun s => if String.eqb s "145" then Some 145 else None) 0 1
           [[" LDL-Cholesterol "; "145"]]).
  vm_compute. left. reflexivity.
Defined.

Lemma csv_loop_other (float_of_string : string -> option Q)
  (name_col value_col : nat) (rows : list (list string)) (acc : dict Q)
  (k : string) :
  (forall row v, In row rows ->
                 row_entry float_of_string name_col value_col row <> Some (k, v)) ->
  dict_get
    (fold_left
       (fun biomarkers row =>
          match row_entry float_of_string name_col value_col row with
          | Some (k', v') => dict_set biomarkers k' v'
          | None => biomarkers
          end) rows acc) k
  = dict_get acc k.
Proof.
  revert acc. induction rows as [| row rows IH]; intros acc H; [reflexivity|].
  cbn [fold_left]. rewrite IH by (intros r v Hr; apply H; right; exact Hr).
  destruct (row_entry float_of_string name_col value_col row) as [[k' v']|] eqn:E;
    [|reflexivity].
  apply dict_get_set_other. intros ->.
  exact (H row v' (or_introl eq_refl) E).
Qed.

(** X21: when several rows of a file clean to the same name, the value
    of the last of them is kept; a name that no row gives is not a key. *)
Theorem csv_last_row_wins (float_of_string : string -> option Q)
  (name_col value_col : nat) (rows : list (list string)) (k : string) :
  (forall before row after v,
     rows = before ++ row :: after ->
     row_entry float_of_string name_col value_col row = Some (k, v) ->
     (forall r v', In r after ->
                   row_entry float_of_string name_col value_col r <> Some (k, v')) ->
     dict_get (parse_csv_rows float_of_string name_col value_col rows) k = Some v) /\
  ((forall r v', In r rows ->
                 row_entry float_of_string name_col value_col r <> Some (k, v')) ->
   dict_get (parse_csv_rows float_of_string name_col value_col rows) k = None).
Proof.
  rewrite parse_csv_rows_fold. split.
  - intros before row after v -> Hrow Hafter.
    rewrite fold_left_app. cbn [fold_left]. rewrite Hrow.
    rewrite csv_loop_other by exact Hafter.
    apply dict_get_set_same.
  - intro H. rewrite csv_loop_other by exact H. reflexivity.
Qed.

Lemma csv_last_row_wins_witness :
  dict_get
    (parse_csv_rows
       (fun s => if String.eqb s "90" then Some 90
                 else if String.eqb s "110" then Some 110 else None)
       0 1 [["Glucose"; "90"]; ["glucose"; "110"]; ["TSH"; "n/a"]])
    "glucose" = Some 110.
Proof.
  refine (proj1 (csv_last_row_wins _ 0 1 _ "glucose")
            [["Glucose"; "90"]] ["glucose"; "110"] [["TSH"; "n/a"]] 110 _ _ _).
  - reflexivity.
  - vm_compute. reflexivity.
  - intros r v' [<- | []]. vm_compute. discriminate.
Defined.

(** ** The file names *)

Lemma after_last_dot_none (s : string) :
  string_forall no_dot s = true -> after_last_dot s = None.
Proof.
  induction s as [| c s IH]; [reflexivity|].
  cbn [string_forall after_last_dot]. unfold no_dot at 1.
  rewrite andb_true_iff, negb_true_iff. intros [Hc Hs].
  rewrite (IH Hs), Hc. reflexivity.
Qed.

Lemma after_last_dot_append (base ext : string) :
  string_forall no_dot ext = true ->
  after_last_dot (String.append base (String "." ext)) = Some ext.
Proof.
  intro Hext. induction base as [| c base IH].
  - cbn [String.append after_last_dot].
    rewrite (after_last_dot_none ext Hext). reflexivity.
  - cbn [String.append after_last_dot]. rewrite IH. reflexivity.
Qed.

Lemma after_last_dot_some (s ext : string) :
  after_last_dot s = Some ext ->
  exists base, s = String.append base (String "." ext) /\
               string_forall no_dot ext = true.
Proof.
  revert ext. induction s as [| c s IH]; intros ext H; [discriminate|].
  cbn [after_last_dot] in H.
  destruct (after_last_dot s) as [e|] eqn:Es.
  - injection H as <-. destruct (IH e eq_refl) as (base & -> & Hno).
    exists (String c base). split; [reflexivity | exact Hno].
  - destruct (Ascii.eqb c ".") eqn:Ec; [|discriminate].
    injection H as <-. apply Ascii.eqb_eq in Ec. subst c.
    exists EmptyString. split; [reflexivity|].
    clear IH. induction s as [| c s IHs]; [reflexivity|].
    cbn [after_last_dot] in Es.
    destruct (after_last_dot s); [discriminate|].
    destruct (Ascii.eqb c ".") eqn:Ec; [discriminate|].
    cbn [string_forall]. unfold no_dot at 1. rewrite Ec. apply IHs. reflexivity.
Qed.

Lemma contains_dot_append (base ext : string) :
  contains "." (String.append base (String "." ext)) = true.
Proof.
  induction base as [| c base IH].
  - cbn [String.append contains]. apply orb_true_iff. left.
    cbn. destruct ext; reflexivity.
  - cbn [String.append contains]. rewrite IH. apply orb_true_r.
Qed.

(** X22: a file name is allowed exactly when it ends in a dot followed by
    an extension without dot that is, without case, one of pdf, png, jpg,
    jpeg and csv; a name without dot is refused. *)
Theorem allowed_file_iff (filename : string) :
  allowed_file filename = true <->
  exists base ext : string,
    filename = String.append base (String "." ext) /\
    string_forall no_dot ext = true /\
    In (lower ext) ALLOWED_EXTENSIONS.
Proof.
  unfold allowed_file. split.
  - rewrite andb_true_iff. intros [_ H].
    destruct (after_last_dot filename) as [ext|] eqn:E; [|discriminate].
    destruct (after_last_dot_some filename ext E) as (base & -> & Hno).
    exists base, ext. split; [reflexivity|]. split; [exact Hno|].
    apply set_mem_In. exact H.
  - intros (base & ext & -> & Hno & Hin).
    rewrite contains_dot_append, (after_last_dot_append base ext Hno).
    apply set_mem_In. exact Hin.
Qed.

(** ** The report as a whole *)



(** X24: a reading taken from a text is never reported as unknown: the
    keys the matcher fills are registry keys, so the classifier knows
    every one of them. *)
Theorem text_readings_are_known (extract : string -> list candidate)
  (text file_type : string) (k : string) (v : Q) :
  In (k, v) (standardize_biomarkers extract (Text text) file_type) ->
  a_status_category (analyze_or_unknown (k, v)) <> "unknown".
Proof.
  intro Hin.
  assert (Hk : In k (dict_keys BIOMARKER_RULES)).
  { unfold standardize_biomarkers in Hin.
    destruct (String.eqb file_type "csv"); [destruct Hin|].
    cbn [is_table andb] in Hin.
    apply (in_map fst) in Hin. cbn [fst] in Hin.
    fold (dict_keys (match_candidates (extract text))) in Hin.
    unfold match_candidates in Hin.
    rewrite match_registry_keys in Hin by exact registry_keys_distinct.
    cbn [dict_keys map app] in Hin.
    apply in_map_iff in Hin. destruct Hin as (e & <- & He).
    apply filter_In in He. destruct He as [He _].
    apply (in_map fst _ _ He). }
  intro Hunk. apply (proj1 (proj1 (unknown_value_kept k v))) in Hunk.
  apply dict_get_None_keys in Hunk. contradiction.
Qed.

Lemma text_readings_are_known_witness :
  a_status_category (analyze_or_unknown ("glucose", 99)) <> "unknown".
Proof.
  apply (text_readings_are_known
           (fun _ => [("fasting glucose", 99, "mg")]) "" "pdf" "glucose" 99).
  vm_compute. left. reflexivity.
Defined.

(** ** Readings outside the registry *)

Lemma dict_get_insert_other {V : Type} (d1 d2 : dict V) (k b : string) (v : V) :
  k <> b -> dict_get (d1 ++ (k, v) :: d2) b = dict_get (d1 ++ d2) b.
Proof.
  intro Hne. induction d1 as [| [k' v'] d1 IH]; simpl.
  - apply String.eqb_neq in Hne. rewrite Hne. reflexivity.
  - rewrite IH. reflexivity.
Qed.

Lemma mapM_ext_in {A B : Type} (f g : A -> result B) (l : list A) :
  (forall a, In a l -> f a = g a) -> mapM f l = mapM g l.
Proof.
  induction l as [| a l IH]; intro H; [reflexivity|].
  cbn [mapM]. rewrite (H a (or_introl eq_refl)), IH; [reflexivity|].
  intros b Hb. apply H. right. exact Hb.
Qed.

Lemma fires_insert_unknown (m1 m2 : dict Q) (k : string) (v : Q)
  (key : string) (rule : DiseaseRule) :
  dict_get BIOMARKER_RULES k = None ->
  In (key, rule) DISEASE_RULES ->
  fires (m1 ++ (k, v) :: m2) rule = fires (m1 ++ m2) rule.
Proof.
  intros Hk Hin.
  assert (Hbio : biomarkers_checked DISEASE_RULES = true) by (vm_compute; reflexivity).
  unfold biomarkers_checked in Hbio. rewrite forallb_forall in Hbio.
  specialize (Hbio _ Hin). cbn [snd] in Hbio.
  apply andb_true_iff in Hbio. destruct Hbio as [_ Hreg].
  rewrite forallb_forall in Hreg.
  unfold fires, rule_fires.
  rewrite (mapM_ext_in
             (fun condition => evaluate_disease_condition condition (m1 ++ (k, v) :: m2))
             (fun condition => evaluate_disease_condition condition (m1 ++ m2)));
    [reflexivity|].
  intros c Hc. unfold evaluate_disease_condition.
  rewrite dict_get_insert_other; [reflexivity|].
  intro E. subst k. specialize (Hreg c Hc). unfold dict_mem in Hreg.
  rewrite Hk in Hreg. discriminate.
Qed.

Lemma detect_insert_unknown (m1 m2 : dict Q) (k : string) (v : Q) :
  dict_get BIOMARKER_RULES k = None ->
  detect_diseases (m1 ++ (k, v) :: m2) = detect_diseases (m1 ++ m2).
Proof.
  intro Hk. rewrite !detect_diseases_eq.
  assert (Hf : fired_list (m1 ++ (k, v) :: m2) = fired_list (m1 ++ m2)).
  { unfold fired_list.
    rewrite (filter_ext_in (fires (m1 ++ (k, v) :: m2)) (fires (m1 ++ m2))
               (map snd DISEASE_RULES)); [reflexivity|].
    intros rule Hr. apply in_map_iff in Hr. destruct Hr as ([key r'] & E & Hin).
    cbn [snd] in E. subst r'. exact (fires_insert_unknown m1 m2 k v key rule Hk Hin). }
  assert (Ho : all_optimal (m1 ++ (k, v) :: m2) = all_optimal (m1 ++ m2)).
  { unfold all_optimal. rewrite !forallb_app. cbn [forallb]. rewrite Hk.
    reflexivity. }
  rewrite Hf, Ho. reflexivity.
Qed.

Lemma symptoms_insert_unknown (detected_diseases : list Detected)
  (m1 m2 : dict Q) (k : string) (v : Q) :
  dict_get BIOMARKER_RULES k = None ->
  get_symptoms detected_diseases (m1 ++ (k, v) :: m2)
  = get_symptoms detected_diseases (m1 ++ m2).
Proof.
  intro Hk. unfold get_symptoms, symptom_union.
  destruct (fold_left disease_step detected_diseases ([], false)) as [s1 da].
  rewrite !fold_left_app. cbn [fold_left].
  assert (Hstep : forall st, biomarker_step st (k, v) = st).
  { intros [s flag]. unfold biomarker_step. rewrite Hk. reflexivity. }
  rewrite Hstep. reflexivity.
Qed.

(** X25: a reading whose key is outside the registry changes neither the
    detected conditions nor the symptoms, wherever it stands in the map. *)
Theorem unknown_reading_is_ignored (detected_diseases : list Detected)
  (m1 m2 : dict Q) (k : string) (v : Q) :
  dict_get BIOMARKER_RULES k = None ->
  detect_diseases (m1 ++ (k, v) :: m2) = detect_diseases (m1 ++ m2) /\
  get_symptoms detected_diseases (m1 ++ (k, v) :: m2)
  = get_symptoms detected_diseases (m1 ++ m2).
Proof.
  intro Hk. split;
    [apply detect_insert_unknown | apply symptoms_insert_unknown]; exact Hk.
Qed.

Lemma unknown_reading_is_ignored_witness :
  detect_diseases ([("glucose", 130)] ++ ("ldl_cholesterol", 190) :: [("tsh", 2.0)])
  = detect_diseases ([("glucose", 130)] ++ [("tsh", 2.0)]) /\
  get_symptoms [] ([("glucose", 130)] ++ ("ldl_cholesterol", 190) :: [("tsh", 2.0)])
  = get_symptoms [] ([("glucose", 130)] ++ [("tsh", 2.0)]).
Proof.
  apply (unknown_reading_is_ignored [] [("glucose", 130)] [("tsh", 2.0)]
           "ldl_cholesterol" 190).
  reflexivity.
Defined.

(** ** The order of the bands *)

(** X26: for an entry whose acceptable range is not empty the
    classification rises with the value: a greater value is never put in
    a lower band. *)
Theorem classification_is_monotone (rules : BiomarkerRule) (v v' : Q) :
  acceptable_min rules < acceptable_max rules ->
  v <= v' ->
  (band_rank (snd (classify rules v)) <= band_rank (snd (classify rules v')))%nat.
Proof.
  intros Hrange Hle.
  destruct (optimal_range_inside _ _ Hrange) as (H1 & H2 & H3).
  pose proof (classify_bands rules v Hrange) as A. cbv zeta in A.
  pose proof (classify_bands rules v' Hrange) as B. cbv zeta in B.
  unfold optimal_band in A, B.
  destruct (classify_in_bands rules v) as (_ & Hc & Hn).
  destruct (classify_in_bands rules v') as (_ & Hc' & Hn').
  destruct A as (A1 & A2 & A3 & A4 & A5 & A6).
  destruct B as (B1 & B2 & B3 & B4 & B5 & B6).
  unfold STATUS_CATEGORIES in Hc, Hc'. cbn [In] in Hc, Hc'.
  destruct Hc as [E | [E | [E | [E | [E | [E | [E | []]]]]]]];
    destruct Hc' as [E' | [E' | [E' | [E' | [E' | [E' | [E' | []]]]]]]];
    try (exfalso; congruence);
    clear Hn Hn'; rewrite <- E, <- E' in *;
    try (vm_compute; lia);
    exfalso;
    repeat match goal with
           | H : (?x = ?x) <-> _ |- _ =>
               let P := fresh "P" in
               pose proof (proj1 H eq_refl) as P; clear H
           end;
    repeat match goal with H : _ /\ _ |- _ => destruct H end;
    lra.
Qed.

Lemma classification_is_monotone_witness :
  (band_rank (snd (classify (mkBiomarkerRule "mg/dL" "70-100" 70 100 126 ["glucose"]) 95))
   <= band_rank (snd (classify (mkBiomarkerRule "mg/dL" "70-100" 70 100 126 ["glucose"])
                        115)))%nat.
Proof.
  apply (classification_is_monotone
           (mkBiomarkerRule "mg/dL" "70-100" 70 100 126 ["glucose"]) 95 115).
  - reflexivity.
  - discriminate.
Defined.

(** ** The header of a tabular file *)

Lemma find_column_some (names header : list string) (i j : nat) :
  find_column names header i = Some j ->
  (i <= j)%nat /\ (j < i + List.length header)%nat /\
  exists col, nth_error header (j - i) = Some col /\
              set_mem (strip (lower col)) names = true.
Proof.
  revert i. induction header as [| col header IH]; intros i H; [discriminate|].
  cbn [find_column] in H.
  destruct (set_mem (strip (lower col)) names) eqn:E.
  - injection H as <-. cbn [List.length]. split; [lia|]. split; [lia|].
    exists col. rewrite Nat.sub_diag. split; [reflexivity | exact E].
  - destruct (IH (S i) H) as (H1 & H2 & col' & Hnth & Hmem).
    cbn [List.length]. split; [lia|]. split; [lia|].
    exists col'. split; [|exact Hmem].
    replace (j - i)%nat with (S (j - S i)) by lia. exact Hnth.
Qed.

(** X27: when the header names both a name column and a value column,
    the two columns differ and lie inside the header, so a row as long as
    the header is never passed over for its length. *)
Theorem header_columns_differ (header : list string) (i j : nat) :
  find_column NAME_HEADERS header 0 = Some i ->
  find_column VALUE_HEADERS header 0 = Some j ->
  (forall (float_of_string : string -> option Q) (rows : list (list string)),
     parse_csv_table float_of_string (header :: rows)
     = parse_csv_rows float_of_string i j rows) /\
  i <> j /\
  forall row : list string,
    List.length row = List.length header ->
    Nat.ltb (Nat.max i j) (List.length row) = true.
Proof.
  intros Hi Hj.
  destruct (find_column_some _ _ _ _ Hi) as (_ & Hilt & ci & Hci & Hmi).
  destruct (find_column_some _ _ _ _ Hj) as (_ & Hjlt & cj & Hcj & Hmj).
  split.
  { intros float_of_string rows. unfold parse_csv_table, csv_columns.
    rewrite Hi, Hj. destruct header; [discriminate | reflexivity]. }
  split.
  - intros <-. rewrite Hci in Hcj. injection Hcj as <-.
    assert (Hdisj : forallb (fun n => negb (set_mem n VALUE_HEADERS)) NAME_HEADERS
                    = true) by reflexivity.
    rewrite forallb_forall in Hdisj. apply set_mem_In in Hmi.
    specialize (Hdisj _ Hmi). rewrite Hmj in Hdisj. discriminate.
  - intros row Hlen. apply Nat.ltb_lt. rewrite Hlen. lia.
Qed.

Lemma header_columns_differ_witness :
  (forall (float_of_string : string -> option Q) (rows : list (list string)),
     parse_csv_table float_of_string (["Test"; "Unit"; " Result "] :: rows)
     = parse_csv_rows float_of_string 0 2 rows) /\
  0%nat <> 2%nat /\
  forall row : list string,
    List.length row = List.length ["Test"; "Unit"; " Result "] ->
    Nat.ltb (Nat.max 0 2) (List.length row) = true.
Proof.
  apply (header_columns_differ ["Test"; "Unit"; " Result "] 0 2); reflexivity.
Defined.
